(** * Rini API client: request dispatch, error translation and parameter marshalling

    A shallow embedding of [rini_client.py].  Python values that travel
    through the client are [pyval]s, dictionaries are finite maps, the
    mutable client object and the trace of external effects are threaded
    through a state-and-exception monad, and everything the client obtains
    from outside (the HTTP transport, the file system, the MIME table,
    CPython's formatting of non-string values) is a field of [world]. *)

From stdpp Require Import gmap strings list fin_maps pretty.
From Stdlib Require Import ZArith Ascii Floats.PrimFloat.

Set Warnings "-register-all".

(** ** Python values *)

Inductive pyval :=
| PNone
| PBool (b : bool)
| PInt (z : Z)
| PFloat (f : float)
| PStr (s : string)
| PList (l : list pyval)
| PDict (d : gmap string pyval).

(** [bool(v)], as tested by [if v:]. *)
Definition is_truthy (v : pyval) : bool :=
  match v with
  | PNone => false
  | PBool b => b
  | PInt z => negb (z =? 0)%Z
  | PFloat f => negb (PrimFloat.eqb f 0%float)
  | PStr s => negb (String.eqb s "")
  | PList l => match l with [] => false | _ :: _ => true end
  | PDict d => negb (bool_decide (d = ∅))
  end.

(** [v is not None]. *)
Definition is_not_None (v : pyval) : bool :=
  match v with PNone => false | _ => true end.

(** [type(v).__name__], used in the messages of the interpreter's own errors. *)
Definition type_name (v : pyval) : string :=
  match v with
  | PNone => "NoneType"
  | PBool _ => "bool"
  | PInt _ => "int"
  | PFloat _ => "float"
  | PStr _ => "str"
  | PList _ => "list"
  | PDict _ => "dict"
  end.

(** Typed arguments seen as Python values: [Optional[T]] is [option T],
    with [None] for Python's [None]. *)
Class ToPy (A : Type) := py : A → pyval.
Global Hint Mode ToPy ! : typeclass_instances.

#[global] Instance pyval_to_py : ToPy pyval := λ v, v.
#[global] Instance string_to_py : ToPy string := PStr.
#[global] Instance Z_to_py : ToPy Z := PInt.
#[global] Instance bool_to_py : ToPy bool := PBool.
#[global] Instance list_to_py `{ToPy A} : ToPy (list A) := λ l, PList (py <$> l).
#[global] Instance sum_to_py `{ToPy A, ToPy B} : ToPy (A + B) :=
  λ u, match u with inl a => py a | inr b => py b end.
#[global] Instance dict_to_py : ToPy (gmap string pyval) := PDict.
#[global] Instance option_to_py `{ToPy A} : ToPy (option A) :=
  λ o, match o with Some a => py a | None => PNone end.

(** A parameter that has a default value other than [None]: the caller
    leaves it out or passes a value. *)
Inductive arg (A : Type) :=
| Default
| Passed (a : A).
Arguments Default {A}.
Arguments Passed {A} a.

Definition arg_or {A} (dflt : A) (a : arg A) : A :=
  match a with Default => dflt | Passed x => x end.

(** ** HTTP messages *)

Record file_part := {
  part_file_name : string;
  part_file_path : string;
  part_mime_type : string;
}.

Record request := {
  method : string;
  endpoint : string;
  headers : gmap string string;
  params : option (gmap string pyval);
  json_data : option pyval;
  data : option (gmap string pyval);
  files : option (gmap string file_part);
}.

(** ** Exceptions *)

(** The concrete subclasses of [httpx.RequestError]. *)
Inductive request_error :=
| ConnectError | ConnectTimeout | ReadTimeout | WriteTimeout | PoolTimeout
| ReadError | WriteError | CloseError
| LocalProtocolError | RemoteProtocolError
| ProxyError | UnsupportedProtocol | DecodingError | TooManyRedirects.

(** The built-in classes that derive from [BaseException] without deriving
    from [Exception]. *)
Inductive base_exception :=
| CancelledError | KeyboardInterrupt | SystemExit | GeneratorExit.

Inductive outcome (E A : Type) :=
| Returned (a : A)
| Raised (e : E).
Arguments Returned {E A} a.
Arguments Raised {E A} e.

Inductive exn :=
| HTTPStatusError (msg : string) (response : Response)
| RequestError (cls : request_error) (msg : string)
| RiniApiException (status : Z) (detail : pyval)
| FileNotFoundError (msg : string)
| OSError (msg : string)
| TypeError (msg : string)
| AttributeError (msg : string)
| OtherException (cls : string) (msg : string)
| BaseException (cls : base_exception) (msg : string)
with Response :=
| mkResponse (status_code : Z) (reason_phrase : string) (url : string)
    (location : option string) (json : outcome exn pyval).

Definition status_code (r : Response) : Z :=
  let 'mkResponse s _ _ _ _ := r in s.
Definition reason_phrase (r : Response) : string :=
  let 'mkResponse _ p _ _ _ := r in p.
Definition url (r : Response) : string :=
  let 'mkResponse _ _ u _ _ := r in u.
Definition location (r : Response) : option string :=
  let 'mkResponse _ _ _ l _ := r in l.
(** The result of [response.json()]: the decoded body, or what decoding raises. *)
Definition json (r : Response) : outcome exn pyval :=
  let 'mkResponse _ _ _ _ j := r in j.

(** [isinstance(e, Exception)]: what an [except Exception] clause catches. *)
Definition is_Exception (e : exn) : bool :=
  match e with BaseException _ _ => false | _ => true end.

(** ** The outside world *)

Record http_client := {
  client_base_url : string;
  client_timeout : float;
}.

Record world := {
  (** [await client.request(...)] for the [n]-th request of a run. *)
  send : nat → http_client → request → outcome exn Response;
  (** [os.path.exists]. *)
  path_exists : string → bool;
  (** [open(path, "rb")]: [Some msg] when it raises [OSError(msg)]. *)
  open_rb : string → option string;
  (** [mimetypes.guess_type(path)[0]]. *)
  guess_type : string → option string;
  (** CPython's [str()] on floats and containers. *)
  str_other : pyval → string;
}.

(** ** Client state and the monad of methods *)

Record RiniAPIClient := {
  base_url : string;
  token : pyval;
  _http_client : option http_client;
  _timeout : float;
}.

Inductive event :=
| EvRequest (via : http_client) (r : request)
| EvJson (response : Response)
| EvOpen (path : string).

Record state := {
  self : RiniAPIClient;
  trace : list event;
}.

Definition io (A : Type) : Type := state → outcome exn A * state.

#[global] Instance io_ret : MRet io := λ A a st, (Returned a, st).
#[global] Instance io_bind : MBind io := λ A B f m st,
  match m st with
  | (Returned a, st') => f a st'
  | (Raised e, st') => (Raised e, st')
  end.

Definition raise {A} (e : exn) : io A := λ st, (Raised e, st).
Definition get_self : io RiniAPIClient := λ st, (Returned (self st), st).
Definition put_self (c : RiniAPIClient) : io unit :=
  λ st, (Returned (), {| self := c; trace := trace st |}).
Definition emit (ev : event) : io unit :=
  λ st, (Returned (), {| self := self st; trace := trace st ++ [ev] |}).
Definition lift {A} (o : outcome exn A) : io A := λ st, (o, st).

(** [try: body / except ...: handler]: the handler picks the first clause
    that matches ([None] when none does and the exception propagates). *)
Definition try_except {A} (body : io A) (handler : exn → option (io A)) : io A :=
  λ st,
    match body st with
    | (Returned a, st') => (Returned a, st')
    | (Raised e, st') =>
        match handler e with
        | Some h => h st'
        | None => (Raised e, st')
        end
    end.

(** The requests a trace contains, in the order they were sent. *)
Definition requests (t : list event) : list request :=
  omap (λ ev, match ev with EvRequest _ r => Some r | _ => None end) t.

(** ** String helpers from the Python standard library *)

(** [s.lstrip('/')] and [s.rstrip('/')]. *)
Fixpoint lstrip_slash (s : string) : string :=
  match s with
  | String "/"%char s' => lstrip_slash s'
  | _ => s
  end.

Definition rstrip_slash (s : string) : string :=
  String.rev (lstrip_slash (String.rev s)).

(** [os.path.basename] (POSIX): what follows the last slash. *)
Fixpoint basename_from (acc s : string) : string :=
  match s with
  | EmptyString => acc
  | String "/"%char s' => basename_from "" s'
  | String c s' => basename_from (acc +:+ String c "") s'
  end.

Definition basename (path : string) : string := basename_from "" path.

(** [needle in s] on strings. *)
Fixpoint str_contains (needle s : string) : bool :=
  String.prefix needle s ||
  match s with
  | EmptyString => false
  | String _ s' => str_contains needle s'
  end.

Definition LF : string := String "010"%char "".

(** ** The parts of httpx the client relies on *)

(** [raise_for_status] raises for every status outside 200..299, as the
    comment next to its call in [_perform_request] says; the message is the
    one httpx 0.28 builds. *)
Module httpx.

(** [Response.is_success]. *)
Definition is_success (r : Response) : bool :=
  bool_decide (200 ≤ status_code r ≤ 299)%Z.

(** [Response.has_redirect_location]. *)
Definition has_redirect_location (r : Response) : bool :=
  bool_decide (status_code r ∈ [301; 302; 303; 307; 308]%Z)
  && bool_decide (is_Some (location r)).

Definition error_type (r : Response) : string :=
  let status_class := (status_code r / 100)%Z in
  if (status_class =? 1)%Z then "Informational response"
  else if (status_class =? 3)%Z then "Redirect response"
  else if (status_class =? 4)%Z then "Client error"
  else if (status_class =? 5)%Z then "Server error"
  else "Invalid status code".

(** The message [raise_for_status] gives the [HTTPStatusError] it raises. *)
Definition status_error_message (r : Response) : string :=
  error_type r +:+ " '" +:+ pretty (status_code r) +:+ " " +:+ reason_phrase r
    +:+ "' for url '" +:+ url r +:+ "'" +:+ LF
    +:+ (if has_redirect_location r
         then "Redirect location: '" +:+ default "" (location r) +:+ "'" +:+ LF
         else "")
    +:+ "For more information check: https://developer.mozilla.org/en-US/docs/Web/HTTP/Status/"
    +:+ pretty (status_code r).

(** [Response.raise_for_status()]. *)
Definition raise_for_status (r : Response) : io Response :=
  if is_success r then mret r
  else raise (HTTPStatusError (status_error_message r) r).

(** [httpx.AsyncClient(base_url=..., timeout=...)]. *)
Definition AsyncClient (base_url : string) (timeout : float) : http_client :=
  {| client_base_url := base_url; client_timeout := timeout |}.

End httpx.

(** ** The client *)

Section Client.

Context (w : world).

(** [str(v)], also what an f-string does to [{v}]. *)
Definition py_str (v : pyval) : string :=
  match v with
  | PNone => "None"
  | PBool true => "True"
  | PBool false => "False"
  | PInt z => pretty z
  | PStr s => s
  | PFloat _ | PList _ | PDict _ => str_other w v
  end.

(** [str(e)]. *)
Definition exn_str (e : exn) : string :=
  match e with
  | RiniApiException status detail =>
      "Rini API Error " +:+ pretty status +:+ ": " +:+ py_str detail
  | HTTPStatusError msg _ | RequestError _ msg | FileNotFoundError msg
  | OSError msg | TypeError msg | AttributeError msg
  | OtherException _ msg | BaseException _ msg => msg
  end.

(** [await client.request(method, endpoint, headers=..., ...)]. *)
Definition client_request (client : http_client) (r : request) : io Response :=
  λ st,
    match emit (EvRequest client r) st with
    | (_, st') => (send w (length (requests (trace st))) client r, st')
    end.

(** [response.json()]. *)
Definition response_json (r : Response) : io pyval :=
  _ ← emit (EvJson r); lift (json r).

(** [payload.get(key, dflt)]; only dictionaries have the method. *)
Definition dict_get (payload : pyval) (key : string) (dflt : pyval) : io pyval :=
  match payload with
  | PDict d => mret (default dflt (d !! key))
  | _ => raise (AttributeError
                  ("'" +:+ type_name payload +:+ "' object has no attribute 'get'"))
  end.

Definition __init__ (base_url : arg string) (token : option string)
    (timeout : arg float) : RiniAPIClient :=
  let base_url := arg_or "http://localhost:8000" base_url in
  let timeout := arg_or 600%float timeout in
  {| base_url := rstrip_slash base_url;
     token := py token;
     _http_client := None;
     _timeout := timeout |}.

Definition __aenter__ : io unit :=
  self ← get_self;
  match _http_client self with
  | None =>
      put_self {| base_url := base_url self;
                  token := token self;
                  _http_client := Some (httpx.AsyncClient (base_url self) (_timeout self));
                  _timeout := _timeout self |}
  | Some _ => mret ()
  end.

Definition __aexit__ : io unit :=
  self ← get_self;
  match _http_client self with
  | Some _ =>
      put_self {| base_url := base_url self;
                  token := token self;
                  _http_client := None;
                  _timeout := _timeout self |}
  | None => mret ()
  end.

Definition _get_headers (self : RiniAPIClient) : gmap string string :=
  let headers := {[ "accept" := "application/json" ]} in
  if is_truthy (token self)
  then <[ "Authorization" := "Bearer " +:+ py_str (token self) ]> headers
  else headers.

Definition _perform_request (client : http_client) (method endpoint : string)
    (params : option (gmap string pyval)) (json_data : option pyval)
    (data : option (gmap string pyval)) (files : option (gmap string file_part))
  : io pyval :=
  self ← get_self;
  let headers := _get_headers self in
  let url := base_url self +:+ endpoint in
  try_except
    (response ← client_request client
       {| method := method; endpoint := endpoint; headers := headers;
          params := params; json_data := json_data; data := data; files := files |};
     _ ← httpx.raise_for_status response;
     if (status_code response =? 204)%Z then mret PNone
     else response_json response)
    (λ e,
       match e with
       | HTTPStatusError _ response =>
           Some (detail ← try_except
                   (error_payload ← response_json response;
                    dict_get error_payload "detail" (PStr (exn_str e)))
                   (λ e', if is_Exception e' then Some (mret (PStr (exn_str e)))
                          else None);
                 raise (RiniApiException (status_code response) detail))
       | RequestError _ _ =>
           Some (raise (RiniApiException 503
                   (PStr ("Request to Rini API failed: " +:+ exn_str e))))
       | _ =>
           if is_Exception e
           then Some (raise (RiniApiException 500
                        (PStr ("An unexpected client-side error occurred: "
                               +:+ exn_str e))))
           else None
       end).

Definition _request (method endpoint : string)
    (params : option (gmap string pyval)) (json_data : option pyval)
    (data : option (gmap string pyval)) (files : option (gmap string file_part))
  : io pyval :=
  self ← get_self;
  match _http_client self with
  | None =>
      let client := httpx.AsyncClient (base_url self) (_timeout self) in
      _perform_request client method endpoint params json_data data files
  | Some client =>
      _perform_request client method endpoint params json_data data files
  end.

Definition set_token (token : pyval) : io unit :=
  self ← get_self;
  put_self {| base_url := base_url self;
              token := token;
              _http_client := _http_client self;
              _timeout := _timeout self |}.

(** ** Typed endpoint methods *)

(** [item in container], for a string [item]. *)
Definition py_contains (container : pyval) (item : string) : io bool :=
  match container with
  | PDict d => mret (bool_decide (is_Some (d !! item)))
  | PList l =>
      mret (existsb (λ x, match x with PStr s => String.eqb s item | _ => false end) l)
  | PStr s => mret (str_contains item s)
  | _ => raise (TypeError
                  ("argument of type '" +:+ type_name container +:+ "' is not iterable"))
  end.

(** [container[key]], for a string [key]. *)
Definition py_getitem (container : pyval) (key : string) : io pyval :=
  match container with
  | PDict d =>
      match d !! key with
      | Some v => mret v
      | None => raise (OtherException "KeyError" ("'" +:+ key +:+ "'"))
      end
  | PList _ => raise (TypeError "list indices must be integers or slices, not str")
  | PStr _ => raise (TypeError "string indices must be integers, not 'str'")
  | _ => raise (TypeError
                  ("'" +:+ type_name container +:+ "' object is not subscriptable"))
  end.

(** *** User endpoints *)

Definition create_user_and_set_token : io pyval :=
  response_data ← _request "POST" "/users/" None None None None;
  _ ← (if is_truthy response_data then
         found ← py_contains response_data "access_token";
         if found : bool then
           access_token ← py_getitem response_data "access_token";
           _ ← set_token access_token;
           _ ← dict_get response_data "id" PNone;
           mret ()
         else mret ()
       else mret ());
  mret response_data.

Definition get_my_info : io pyval :=
  _request "GET" "/users/me" None None None None.

(** *** API key management *)

Definition register_api_key (model_provider api_key_value : string)
    (description : option string) : io pyval :=
  let payload : gmap string pyval :=
    {[ "model_provider" := py model_provider; "api_key_value" := py api_key_value ]} in
  let payload :=
    if is_not_None (py description) then <[ "description" := py description ]> payload
    else payload in
  _request "POST" "/api-keys/" None (Some (PDict payload)) None None.

Definition list_api_keys (skip limit : arg Z) : io pyval :=
  let skip := arg_or 0%Z skip in
  let limit := arg_or 10%Z limit in
  _request "GET" "/api-keys/"
    (Some {[ "skip" := py skip; "limit" := py limit ]}) None None None.

Definition get_api_key (api_key_id : Z) : io pyval :=
  _request "GET" ("/api-keys/" +:+ py_str (py api_key_id)) None None None None.

Definition update_api_key (api_key_id : Z) (description : option string)
    (is_active : option bool) : io pyval :=
  let payload : gmap string pyval := ∅ in
  let payload :=
    if is_not_None (py description) then <[ "description" := py description ]> payload
    else payload in
  let payload :=
    if is_not_None (py is_active) then <[ "is_active" := py is_active ]> payload
    else payload in
  _request "PUT" ("/api-keys/" +:+ py_str (py api_key_id)) None (Some (PDict payload))
    None None.

Definition delete_api_key (api_key_id : Z) : io pyval :=
  _ ← _request "DELETE" ("/api-keys/" +:+ py_str (py api_key_id)) None None None None;
  mret PNone.

(** *** Session management *)

Definition create_session (alias system_prompt : option string)
    (memory_mode : arg string) : io pyval :=
  let memory_mode := arg_or "auto" memory_mode in
  let payload : gmap string pyval := {[ "memory_mode" := py memory_mode ]} in
  let payload :=
    if is_not_None (py alias) then <[ "alias" := py alias ]> payload else payload in
  let payload :=
    if is_not_None (py system_prompt)
    then <[ "system_prompt" := py system_prompt ]> payload
    else payload in
  _request "POST" "/sessions/" None (Some (PDict payload)) None None.

Definition list_sessions (skip limit : arg Z) : io pyval :=
  let skip := arg_or 0%Z skip in
  let limit := arg_or 10%Z limit in
  _request "GET" "/sessions/"
    (Some {[ "skip" := py skip; "limit" := py limit ]}) None None None.

Definition get_session (session_id : string) : io pyval :=
  _request "GET" ("/sessions/" +:+ py_str (py session_id)) None None None None.

Definition update_session (session_id : string)
    (alias system_prompt memory_mode : option string) : io pyval :=
  let payload : gmap string pyval := ∅ in
  let payload :=
    if is_not_None (py alias) then <[ "alias" := py alias ]> payload else payload in
  let payload :=
    if is_not_None (py system_prompt)
    then <[ "system_prompt" := py system_prompt ]> payload
    else payload in
  let payload :=
    if is_not_None (py memory_mode) then <[ "memory_mode" := py memory_mode ]> payload
    else payload in
  _request "PUT" ("/sessions/" +:+ py_str (py session_id)) None (Some (PDict payload))
    None None.

Definition delete_session (session_id : string) : io pyval :=
  _ ← _request "DELETE" ("/sessions/" +:+ py_str (py session_id)) None None None None;
  mret PNone.

(** *** Message management *)

Definition add_message_to_session (session_id role content : string) : io pyval :=
  let payload : gmap string pyval := {[ "role" := py role; "content" := py content ]} in
  _request "POST" ("/sessions/" +:+ py_str (py session_id) +:+ "/messages/") None
    (Some (PDict payload)) None None.

Definition list_session_messages (session_id : string) (skip limit : arg Z)
  : io pyval :=
  let skip := arg_or 0%Z skip in
  let limit := arg_or 100%Z limit in
  _request "GET" ("/sessions/" +:+ py_str (py session_id) +:+ "/messages/")
    (Some {[ "skip" := py skip; "limit" := py limit ]}) None None None.

Definition get_message_info (message_id : Z) : io pyval :=
  _request "GET" ("/messages/" +:+ py_str (py message_id)) None None None None.

Definition get_message_parent_history (message_id : Z) : io pyval :=
  _request "GET" ("/messages/" +:+ py_str (py message_id) +:+ "/history")
    None None None None.

(** *** LLM interaction *)

Definition get_text_from_text (text provider model : string)
    (session_id : option string) (llm_params : option (gmap string pyval)) : io pyval :=
  let payload : gmap string pyval :=
    {[ "text" := py text; "provider" := py provider; "model" := py model ]} in
  let payload :=
    if is_truthy (py session_id) then <[ "session_id" := py session_id ]> payload
    else payload in
  let payload :=
    if is_truthy (py llm_params) then <[ "llm_params" := py llm_params ]> payload
    else payload in
  _request "POST" "/llm/text-completion/" None (Some (PDict payload)) None None.

Definition get_text_from_messages (messages : list (gmap string pyval))
    (provider model : string) (llm_params : option (gmap string pyval)) : io pyval :=
  let payload : gmap string pyval :=
    {[ "messages" := py messages; "provider" := py provider; "model" := py model ]} in
  let payload :=
    if is_truthy (py llm_params) then <[ "llm_params" := py llm_params ]> payload
    else payload in
  _request "POST" "/llm/chat-completions/" None (Some (PDict payload)) None None.

Definition get_text_from_image_and_text (image_file_path provider : string)
    (model prompt session_id : option string) : io pyval :=
  if negb (path_exists w image_file_path)
  then raise (FileNotFoundError ("Image file not found: " +:+ image_file_path))
  else
    let form_data : gmap string pyval := {[ "provider" := py provider ]} in
    let form_data :=
      if is_truthy (py prompt) then <[ "prompt" := py prompt ]> form_data
      else form_data in
    let form_data :=
      if is_truthy (py model) then <[ "model" := py model ]> form_data else form_data in
    let form_data :=
      if is_truthy (py session_id) then <[ "session_id" := py session_id ]> form_data
      else form_data in
    let file_name := basename image_file_path in
    let mime_type := guess_type w image_file_path in
    let mime_type :=
      if is_truthy (py mime_type) then default "" mime_type
      else "application/octet-stream" in
    _ ← emit (EvOpen image_file_path);
    match open_rb w image_file_path with
    | Some msg => raise (OSError msg)
    | None =>
        let files : gmap string file_part :=
          {[ "image_file" := {| part_file_name := file_name;
                                part_file_path := image_file_path;
                                part_mime_type := mime_type |} ]} in
        let str_form_data : gmap string pyval :=
          (λ v, if is_not_None v then PStr (py_str v) else PNone)
            <$> filter (λ kv, is_not_None kv.2) form_data in
        _request "POST" "/llm/image-completion/" None None (Some str_form_data)
          (Some files)
    end.

Definition get_embedding (text_input : string + list string)
    (provider model : arg string) : io pyval :=
  let provider := arg_or "openai" provider in
  let model := arg_or "text-embedding-3-large" model in
  let payload : gmap string pyval :=
    {[ "input" := py text_input; "provider" := py provider; "model" := py model ]} in
  _request "POST" "/llm/embeddings/" None (Some (PDict payload)) None None.

(** *** MCP connection endpoints *)

Definition add_mcp_connection (url : string) (alias description : option string)
    (is_active : arg bool) : io pyval :=
  let is_active := arg_or true is_active in
  let payload : gmap string pyval :=
    {[ "mcp_server_url" := py url; "is_active" := py is_active ]} in
  let payload :=
    if is_truthy (py alias) then <[ "alias" := py alias ]> payload else payload in
  let payload :=
    if is_truthy (py description) then <[ "description" := py description ]> payload
    else payload in
  _request "POST" "/mcp-connections/" None (Some (PDict payload)) None None.

Definition list_mcp_connections (is_active : option bool) (skip limit : arg Z)
  : io pyval :=
  let skip := arg_or 0%Z skip in
  let limit := arg_or 100%Z limit in
  let params : gmap string pyval := {[ "skip" := py skip; "limit" := py limit ]} in
  let params :=
    if is_not_None (py is_active) then <[ "is_active" := py is_active ]> params
    else params in
  _request "GET" "/mcp-connections/" (Some params) None None None.

Definition get_mcp_connection_detail (connection_id : Z) : io pyval :=
  _request "GET" ("/mcp-connections/" +:+ py_str (py connection_id)) None None None None.

Definition update_mcp_connection (connection_id : Z)
    (mcp_update_data : gmap string pyval) : io pyval :=
  _request "PUT" ("/mcp-connections/" +:+ py_str (py connection_id)) None
    (Some (py mcp_update_data)) None None.

Definition delete_mcp_connection (connection_id : Z) : io pyval :=
  _ ← _request "DELETE" ("/mcp-connections/" +:+ py_str (py connection_id))
        None None None None;
  mret PNone.

(** *** Memory endpoints *)

(** The named parameters of [add_memory_entry]. *)
Definition add_memory_entry_parameters : list string :=
  ["self"; "session_id"; "memory_type"; "scope"; "content"].

(** The keywords of a call of [add_memory_entry] that are named like one
    of its parameters. *)
Definition clashing (kwargs : gmap string pyval) : list string :=
  filter (λ k, is_Some (kwargs !! k)) add_memory_entry_parameters.

(** The four named arguments are bound, so a keyword named like a
    parameter cannot go into [**kwargs]: binding the arguments raises
    [TypeError] and the body does not run.  (When several keywords clash
    CPython names the first of the call; a dictionary does not keep that
    order and the message here names the first of the signature.)  In
    the dictionary display [**kwargs] comes last. *)
Definition add_memory_entry (session_id memory_type scope content : string)
    (kwargs : gmap string pyval) : io pyval :=
  match clashing kwargs with
  | k :: _ =>
      raise (TypeError ("RiniAPIClient.add_memory_entry() got multiple values for "
                        +:+ "argument '" +:+ k +:+ "'"))
  | [] =>
      let payload : gmap string pyval :=
        kwargs ∪ {[ "memory_type" := py memory_type; "scope" := py scope;
                    "content" := py content ]} in
      _request "POST" ("/sessions/" +:+ py_str (py session_id) +:+ "/memory") None
        (Some (PDict payload)) None None
  end.

Definition list_memory_entries (session_id scope memory_type : option string)
    (skip limit : arg Z) : io pyval :=
  let skip := arg_or 0%Z skip in
  let limit := arg_or 100%Z limit in
  let params : gmap string pyval := {[ "skip" := py skip; "limit" := py limit ]} in
  let params :=
    if is_truthy (py session_id) then <[ "session_id" := py session_id ]> params
    else params in
  let params :=
    if is_truthy (py scope) then <[ "scope" := py scope ]> params else params in
  let params :=
    if is_truthy (py memory_type) then <[ "memory_type" := py memory_type ]> params
    else params in
  _request "GET" "/memory/" (Some params) None None None.

Definition get_memory_entry_detail (memory_id : Z) : io pyval :=
  _request "GET" ("/memory/" +:+ py_str (py memory_id)) None None None None.

Definition update_memory_entry (memory_id : Z)
    (memory_update_data : gmap string pyval) : io pyval :=
  _request "PATCH" ("/memory/" +:+ py_str (py memory_id)) None
    (Some (py memory_update_data)) None None.

Definition delete_memory_entry (memory_id : Z) : io pyval :=
  _ ← _request "DELETE" ("/memory/" +:+ py_str (py memory_id)) None None None None;
  mret PNone.

(** *** Cost estimation endpoint *)

Definition get_cost_estimation
    (start_date end_date session_id provider model : option string) : io pyval :=
  let params : gmap string pyval := ∅ in
  let params :=
    if is_truthy (py start_date) then <[ "start_date" := py start_date ]> params
    else params in
  let params :=
    if is_truthy (py end_date) then <[ "end_date" := py end_date ]> params
    else params in
  let params :=
    if is_truthy (py session_id) then <[ "session_id" := py session_id ]> params
    else params in
  let params :=
    if is_truthy (py provider) then <[ "provider" := py provider ]> params
    else params in
  let params :=
    if is_truthy (py model) then <[ "model" := py model ]> params else params in
  _request "GET" "/usage/cost-estimation/" (Some params) None None None.

(** ** Calls of the typed methods, as data *)

Inductive call :=
| CreateUserAndSetToken
| GetMyInfo
| RegisterApiKey (model_provider api_key_value : string) (description : option string)
| ListApiKeys (skip limit : arg Z)
| GetApiKey (api_key_id : Z)
| UpdateApiKey (api_key_id : Z) (description : option string) (is_active : option bool)
| DeleteApiKey (api_key_id : Z)
| CreateSession (alias system_prompt : option string) (memory_mode : arg string)
| ListSessions (skip limit : arg Z)
| GetSession (session_id : string)
| UpdateSession (session_id : string) (alias system_prompt memory_mode : option string)
| DeleteSession (session_id : string)
| AddMessageToSession (session_id role content : string)
| ListSessionMessages (session_id : string) (skip limit : arg Z)
| GetMessageInfo (message_id : Z)
| GetMessageParentHistory (message_id : Z)
| GetTextFromText (text provider model : string) (session_id : option string)
    (llm_params : option (gmap string pyval))
| GetTextFromMessages (messages : list (gmap string pyval)) (provider model : string)
    (llm_params : option (gmap string pyval))
| GetTextFromImageAndText (image_file_path provider : string)
    (model prompt session_id : option string)
| GetEmbedding (text_input : string + list string) (provider model : arg string)
| AddMcpConnection (url : string) (alias description : option string)
    (is_active : arg bool)
| ListMcpConnections (is_active : option bool) (skip limit : arg Z)
| GetMcpConnectionDetail (connection_id : Z)
| UpdateMcpConnection (connection_id : Z) (mcp_update_data : gmap string pyval)
| DeleteMcpConnection (connection_id : Z)
| AddMemoryEntry (session_id memory_type scope content : string)
    (kwargs : gmap string pyval)
| ListMemoryEntries (session_id scope memory_type : option string) (skip limit : arg Z)
| GetMemoryEntryDetail (memory_id : Z)
| UpdateMemoryEntry (memory_id : Z) (memory_update_data : gmap string pyval)
| DeleteMemoryEntry (memory_id : Z)
| GetCostEstimation (start_date end_date session_id provider model : option string).

Definition invoke (c : call) : io pyval :=
  match c with
  | CreateUserAndSetToken => create_user_and_set_token
  | GetMyInfo => get_my_info
  | RegisterApiKey p k d => register_api_key p k d
  | ListApiKeys s l => list_api_keys s l
  | GetApiKey i => get_api_key i
  | UpdateApiKey i d a => update_api_key i d a
  | DeleteApiKey i => delete_api_key i
  | CreateSession a sp mm => create_session a sp mm
  | ListSessions s l => list_sessions s l
  | GetSession i => get_session i
  | UpdateSession i a sp mm => update_session i a sp mm
  | DeleteSession i => delete_session i
  | AddMessageToSession i r c => add_message_to_session i r c
  | ListSessionMessages i s l => list_session_messages i s l
  | GetMessageInfo i => get_message_info i
  | GetMessageParentHistory i => get_message_parent_history i
  | GetTextFromText t p m sid lp => get_text_from_text t p m sid lp
  | GetTextFromMessages ms p m lp => get_text_from_messages ms p m lp
  | GetTextFromImageAndText f p m pr sid => get_text_from_image_and_text f p m pr sid
  | GetEmbedding t p m => get_embedding t p m
  | AddMcpConnection u a d act => add_mcp_connection u a d act
  | ListMcpConnections act s l => list_mcp_connections act s l
  | GetMcpConnectionDetail i => get_mcp_connection_detail i
  | UpdateMcpConnection i d => update_mcp_connection i d
  | DeleteMcpConnection i => delete_mcp_connection i
  | AddMemoryEntry sid mt sc ct kw => add_memory_entry sid mt sc ct kw
  | ListMemoryEntries sid sc mt s l => list_memory_entries sid sc mt s l
  | GetMemoryEntryDetail i => get_memory_entry_detail i
  | UpdateMemoryEntry i d => update_memory_entry i d
  | DeleteMemoryEntry i => delete_memory_entry i
  | GetCostEstimation sd ed sid p m => get_cost_estimation sd ed sid p m
  end.

(** A caller that goes on after a failure: each call starts from the state
    the previous one left. *)
Definition invoke_all (cs : list call) (st : state) : state :=
  foldl (λ st c, (invoke c st).2) st cs.

(** The request [_perform_request] hands to the transport in state [st],
    and what the transport answers to it. *)
Definition outgoing (st : state) (method endpoint : string)
    (params : option (gmap string pyval)) (json_data : option pyval)
    (data : option (gmap string pyval)) (files : option (gmap string file_part))
  : request :=
  {| method := method; endpoint := endpoint; headers := _get_headers (self st);
     params := params; json_data := json_data; data := data; files := files |}.

Definition reply (client : http_client) (st : state) (r : request)
  : outcome exn Response :=
  send w (length (requests (trace st))) client r.

(** The connection [_request] uses in state [st]. *)
Definition connection (st : state) : http_client :=
  match _http_client (self st) with
  | Some client => client
  | None => httpx.AsyncClient (base_url (self st)) (_timeout (self st))
  end.

End Client.

(** The requests sent between two states of a run, and those a
    computation sends from a state. *)
Definition new_requests (st st' : state) : list request :=
  drop (length (requests (trace st))) (requests (trace st')).

Definition sent {A} (m : io A) (st : state) : list request :=
  new_requests st (m st).2.

(** The state after some more events. *)
Definition logged (st : state) (evs : list event) : state :=
  {| self := self st; trace := trace st ++ evs |}.

(** ** Example worlds *)

(** A world whose transport answers every request with [o], with an empty
    file system. *)
Definition fixed_world (o : outcome exn Response) : world :=
  {| send := λ _ _ _, o;
     path_exists := λ _, false;
     open_rb := λ _, None;
     guess_type := λ _, None;
     str_other := λ _, "" |}.

Definition ok_response (body : pyval) : Response :=
  mkResponse 200 "OK" "http://localhost:8000/" None (Returned body).

Definition not_found (body : outcome exn pyval) : Response :=
  mkResponse 404 "Not Found" "http://localhost:8000/users/me" None body.

(** A 204 answer; its empty body is not JSON. *)
Definition no_content : Response :=
  mkResponse 204 "No Content" "http://localhost:8000/sessions/s1" None
    (Raised (OtherException "JSONDecodeError"
               "Expecting value: line 1 column 1 (char 0)")).

(** Servers that answer the user-creation call with a token, and with an
    empty one. *)
Definition token_world : world :=
  fixed_world (Returned (ok_response
                 (PDict {[ "id" := PInt 7; "access_token" := PStr "secret" ]}))).

Definition empty_token_world : world :=
  fixed_world (Returned (ok_response (PDict {[ "access_token" := PStr "" ]}))).

(** [RiniAPIClient()] and the state a run starts in. *)
Definition fresh_client : RiniAPIClient := __init__ Default None Default.

Definition fresh : state := {| self := fresh_client; trace := [] |}.

(** ** Signatures of the typed methods *)

(** The name of a parameter declared [Optional[...] = None], when the call
    leaves it at [None]. *)
Definition unset {A} (name : string) (a : option A) : list string :=
  match a with None => [name] | Some _ => [] end.

(** The name and default of a parameter declared with another default,
    when the call leaves it out. *)
Definition defaulted {A} `{ToPy A} (name : string) (dflt : A) (a : arg A)
  : list (string * pyval) :=
  match a with Default => [(name, py dflt)] | Passed _ => [] end.

(** The [Optional[...] = None] parameters a call leaves at [None]. *)
Definition omitted_None (c : call) : list string :=
  match c with
  | RegisterApiKey _ _ d => unset "description" d
  | UpdateApiKey _ d a => unset "description" d ++ unset "is_active" a
  | CreateSession a sp _ => unset "alias" a ++ unset "system_prompt" sp
  | UpdateSession _ a sp mm =>
      unset "alias" a ++ unset "system_prompt" sp ++ unset "memory_mode" mm
  | GetTextFromText _ _ _ sid lp => unset "session_id" sid ++ unset "llm_params" lp
  | GetTextFromMessages _ _ _ lp => unset "llm_params" lp
  | GetTextFromImageAndText _ _ m pr sid =>
      unset "model" m ++ unset "prompt" pr ++ unset "session_id" sid
  | AddMcpConnection _ a d _ => unset "alias" a ++ unset "description" d
  | ListMcpConnections act _ _ => unset "is_active" act
  | ListMemoryEntries sid sc mt _ _ =>
      unset "session_id" sid ++ unset "scope" sc ++ unset "memory_type" mt
  | GetCostEstimation sd ed sid p m =>
      unset "start_date" sd ++ unset "end_date" ed ++ unset "session_id" sid
      ++ unset "provider" p ++ unset "model" m
  | _ => []
  end.

(** The parameters with a default other than [None] that a call leaves
    out, each with the default its signature gives it. *)
Definition omitted_defaulted (c : call) : list (string * pyval) :=
  match c with
  | ListApiKeys s l | ListSessions s l =>
      defaulted "skip" 0%Z s ++ defaulted "limit" 10%Z l
  | ListSessionMessages _ s l | ListMcpConnections _ s l
  | ListMemoryEntries _ _ _ s l =>
      defaulted "skip" 0%Z s ++ defaulted "limit" 100%Z l
  | CreateSession _ _ mm => defaulted "memory_mode" "auto" mm
  | GetEmbedding _ p m =>
      defaulted "provider" "openai" p ++ defaulted "model" "text-embedding-3-large" m
  | AddMcpConnection _ _ _ act => defaulted "is_active" true act
  | _ => []
  end.




(** A request carries [key] when its query parameters, its JSON body or
    its form fields have it. *)
Definition carries (r : request) (key : string) : Prop :=
  (∃ d, params r = Some d ∧ is_Some (d !! key))
  ∨ (∃ d, json_data r = Some (PDict d) ∧ is_Some (d !! key))
  ∨ (∃ d, data r = Some d ∧ is_Some (d !! key)).

(** A request carries [key] with value [v]. *)
Definition carries_value (r : request) (key : string) (v : pyval) : Prop :=
  (∃ d, params r = Some d ∧ d !! key = Some v)
  ∨ (∃ d, json_data r = Some (PDict d) ∧ d !! key = Some v)
  ∨ (∃ d, data r = Some d ∧ d !! key = Some v).

(** [None], an empty string or an empty dictionary where the method tests
    the argument with [if arg:]. *)
Definition blank_str (a : option string) : option string :=
  match a with Some "" => None | _ => a end.

Definition blank_dict (a : option (gmap string pyval)) : option (gmap string pyval) :=
  match a with
  | Some d => if bool_decide (d = ∅) then None else a
  | None => None
  end.

(** The same call with every falsy argument of a truthiness-tested
    optional parameter replaced by [None]. *)
Definition forget_falsy (c : call) : call :=
  match c with
  | GetTextFromText t p m sid lp =>
      GetTextFromText t p m (blank_str sid) (blank_dict lp)
  | GetTextFromMessages ms p m lp => GetTextFromMessages ms p m (blank_dict lp)
  | GetTextFromImageAndText f p m pr sid =>
      GetTextFromImageAndText f p (blank_str m) (blank_str pr) (blank_str sid)
  | AddMcpConnection u a d act => AddMcpConnection u (blank_str a) (blank_str d) act
  | ListMemoryEntries sid sc mt s l =>
      ListMemoryEntries (blank_str sid) (blank_str sc) (blank_str mt) s l
  | GetCostEstimation sd ed sid p m =>
      GetCostEstimation (blank_str sd) (blank_str ed) (blank_str sid) (blank_str p)
        (blank_str m)
  | _ => c
  end.

(** ** Properties of outcomes and requests *)

(** Nothing but the domain exception escapes. *)
Definition only_domain_exception {A} (o : outcome exn A) : Prop :=
  ∀ x, o = Raised x → ∃ status detail, x = RiniApiException status detail.


(** The request has the header [Authorization: Bearer t]. *)
Definition has_bearer (t : string) (r : request) : Prop :=
  headers r !! "Authorization" = Some ("Bearer " +:+ t).



(** ** Operations on a client, as data *)

(** What a caller can do with a client between its construction and the
    end of a run. *)
Inductive action :=
| Enter
| Exit
| SetToken (token : pyval)
| Call (c : call).

Definition perform (w : world) (a : action) (st : state) : state :=
  match a with
  | Enter => (__aenter__ st).2
  | Exit => (__aexit__ st).2
  | SetToken token => (set_token token st).2
  | Call c => (invoke w c st).2
  end.

Definition perform_all (w : world) (acts : list action) (st : state) : state :=
  foldl (λ st a, perform w a st) st acts.

(** The connections the requests of a trace were sent on. *)
Definition connections (t : list event) : list http_client :=
  omap (λ ev, match ev with EvRequest via _ => Some via | _ => None end) t.

(** The files a trace opened. *)
Definition opened (t : list event) : list string :=
  omap (λ ev, match ev with EvOpen path => Some path | _ => None end) t.

(** ** What a call is expected to transmit *)

(** The required parameters of a call that go into the body, the query
    or the form (those that go into the path are left out), each under the
    key the method gives it. *)
Definition required (c : call) : list (string * pyval) :=
  match c with
  | RegisterApiKey p k _ => [("model_provider", py p); ("api_key_value", py k)]
  | AddMessageToSession _ r ct => [("role", py r); ("content", py ct)]
  | GetTextFromText t p m _ _ => [("text", py t); ("provider", py p); ("model", py m)]
  | GetTextFromMessages ms p m _ =>
      [("messages", py ms); ("provider", py p); ("model", py m)]
  | GetTextFromImageAndText _ p _ _ _ => [("provider", py p)]
  | GetEmbedding t _ _ => [("input", py t)]
  | AddMcpConnection u _ _ _ => [("mcp_server_url", py u)]
  | AddMemoryEntry _ mt sc ct _ =>
      [("memory_type", py mt); ("scope", py sc); ("content", py ct)]
  | _ => []
  end.

(** An optional parameter tested with [is not None], when it is given. *)
Definition given {A} `{ToPy A} (name : string) (a : option A) : list (string * pyval) :=
  match a with Some x => [(name, py x)] | None => [] end.

(** An optional parameter tested with [if arg:], when it is truthy. *)
Definition given_truthy {A} `{ToPy A} (name : string) (a : option A)
  : list (string * pyval) :=
  if is_truthy (py a) then [(name, py a)] else [].

(** A parameter with a default other than [None], when it is passed. *)
Definition passed {A} `{ToPy A} (name : string) (a : arg A) : list (string * pyval) :=
  match a with Passed x => [(name, py x)] | Default => [] end.

(** The optional parameters a call supplies in a way its method lets
    through, the keyword arguments of [add_memory_entry] and the entries of
    the dictionary given to an [update_*] method that takes one, each with
    the value supplied. *)
Definition supplied (c : call) : list (string * pyval) :=
  match c with
  | RegisterApiKey _ _ d => given "description" d
  | ListApiKeys s l | ListSessions s l | ListSessionMessages _ s l =>
      passed "skip" s ++ passed "limit" l
  | UpdateApiKey _ d a => given "description" d ++ given "is_active" a
  | CreateSession a sp mm =>
      passed "memory_mode" mm ++ given "alias" a ++ given "system_prompt" sp
  | UpdateSession _ a sp mm =>
      given "alias" a ++ given "system_prompt" sp ++ given "memory_mode" mm
  | GetTextFromText _ _ _ sid lp =>
      given_truthy "session_id" sid ++ given_truthy "llm_params" lp
  | GetTextFromMessages _ _ _ lp => given_truthy "llm_params" lp
  | GetTextFromImageAndText _ _ m pr sid =>
      given_truthy "prompt" pr ++ given_truthy "model" m
      ++ given_truthy "session_id" sid
  | GetEmbedding _ p m => passed "provider" p ++ passed "model" m
  | AddMcpConnection _ a d act =>
      passed "is_active" act ++ given_truthy "alias" a ++ given_truthy "description" d
  | ListMcpConnections act s l =>
      passed "skip" s ++ passed "limit" l ++ given "is_active" act
  | ListMemoryEntries sid sc mt s l =>
      passed "skip" s ++ passed "limit" l ++ given_truthy "session_id" sid
      ++ given_truthy "scope" sc ++ given_truthy "memory_type" mt
  | GetCostEstimation sd ed sid p m =>
      given_truthy "start_date" sd ++ given_truthy "end_date" ed
      ++ given_truthy "session_id" sid ++ given_truthy "provider" p
      ++ given_truthy "model" m
  | AddMemoryEntry _ _ _ _ kw => map_to_list kw
  | UpdateMcpConnection _ d | UpdateMemoryEntry _ d => map_to_list d
  | _ => []
  end.

(** The methods whose body is a dictionary of the caller's: its keys are
    the caller's business. *)
Definition passes_dictionary (c : call) : bool :=
  match c with
  | UpdateMcpConnection _ _ | UpdateMemoryEntry _ _ | AddMemoryEntry _ _ _ _ _ => true
  | _ => false
  end.


(** [s.endswith("/")]. *)
Fixpoint ends_with_slash (s : string) : bool :=
  match s with
  | EmptyString => false
  | String c EmptyString => bool_decide (c = "/"%char)
  | String _ s' => ends_with_slash s'
  end.

(** [n * "/"]. *)
Fixpoint slashes (n : nat) : string :=
  match n with
  | O => ""
  | S n' => String "/"%char (slashes n')
  end.

(** The stored connection, when there is one, is bound to the base URL
    and the timeout of the client. *)
Definition bound (c : RiniAPIClient) : Prop :=
  ∀ client, _http_client c = Some client →
            client = httpx.AsyncClient (base_url c) (_timeout c).

(** A world whose transport times out. *)
Definition timeout_world : world :=
  fixed_world (Raised (RequestError ReadTimeout "timed out")).

(** The same when the timeout has no message, as httpx raises it. *)
Definition silent_timeout_world : world :=
  fixed_world (Raised (RequestError ReadTimeout "")).

(** [type(e).__name__] of a transport error. *)
Definition request_error_name (cls : request_error) : string :=
  match cls with
  | ConnectError => "ConnectError"
  | ConnectTimeout => "ConnectTimeout"
  | ReadTimeout => "ReadTimeout"
  | WriteTimeout => "WriteTimeout"
  | PoolTimeout => "PoolTimeout"
  | ReadError => "ReadError"
  | WriteError => "WriteError"
  | CloseError => "CloseError"
  | LocalProtocolError => "LocalProtocolError"
  | RemoteProtocolError => "RemoteProtocolError"
  | ProxyError => "ProxyError"
  | UnsupportedProtocol => "UnsupportedProtocol"
  | DecodingError => "DecodingError"
  | TooManyRedirects => "TooManyRedirects"
  end.

(** A detail names a transport error when the name of its class or its
    message, if it has one, occurs in it. *)
Definition names_error (detail : string) (cls : request_error) (msg : string) : bool :=
  str_contains (request_error_name cls) detail
  || (negb (String.eqb msg "") && str_contains msg detail).

(** The actions that cannot replace the stored token: all but
    [set_token] and the user-creation call. *)
Definition keeps_token (a : action) : bool :=
  match a with
  | SetToken _ | Call CreateUserAndSetToken => false
  | _ => true
  end.


(** A world with one image file that opens, and one with a file that
    does not. *)
Definition image_world : world :=
  {| send := λ _ _ _, Returned (ok_response (PDict {[ "response_text" := PStr "a cat" ]}));
     path_exists := λ path, String.eqb path "pics/cat.png";
     open_rb := λ _, None;
     guess_type := λ path, if String.eqb path "pics/cat.png" then Some "image/png" else None;
     str_other := λ _, "" |}.

Definition locked_world : world :=
  {| send := λ _ _ _, Returned (ok_response PNone);
     path_exists := λ _, true;
     open_rb := λ _, Some "[Errno 13] Permission denied";
     guess_type := λ _, None;
     str_other := λ _, "" |}.

(** * The web front end ([simple_chatbot_web.py]) *)

(** [dict.get(key, dflt)] outside the client: only dictionaries have it. *)
Definition py_get (payload : pyval) (key : string) (dflt : pyval) : outcome exn pyval :=
  match payload with
  | PDict d => Returned (default dflt (d !! key))
  | _ => Raised (AttributeError
                   ("'" +:+ type_name payload +:+ "' object has no attribute 'get'"))
  end.

(** [get_text_from_text] as Python runs it when the caller passes values
    of any type: annotations are not checked. *)
Definition get_text_from_text_any (w : world)
    (text provider model session_id llm_params : pyval) : io pyval :=
  let payload : gmap string pyval :=
    {[ "text" := text; "provider" := provider; "model" := model ]} in
  let payload :=
    if is_truthy session_id then <[ "session_id" := session_id ]> payload
    else payload in
  let payload :=
    if is_truthy llm_params then <[ "llm_params" := llm_params ]> payload
    else payload in
  _request w "POST" "/llm/text-completion/" None (Some (PDict payload)) None None.

Module web.

(** What a handler returns: a rendered page, a text or a JSON document,
    with the HTTP status. *)
Inductive content :=
| Page (providers : list string) (models : gmap string (list string))
| Text (text : string)
| Json (document : pyval).

(** The module's global and the trace of the process. *)
Record app := {
  current_session_id : pyval;
  history : list event;
}.

Definition handler (A : Type) : Type := app → outcome exn A * app.

(** [async with client: body]: the client is entered, the body runs, and
    the client is exited on every way out of the body. *)
Definition async_with {A} (client : RiniAPIClient) (body : io A) : handler A :=
  λ a,
    let st0 := {| self := client; trace := history a |} in
    let st1 := (__aenter__ st0).2 in
    let (result, st2) := body st1 in
    let st3 := (__aexit__ st2).2 in
    (result, {| current_session_id := current_session_id a; history := trace st3 |}).

Definition providers : list string := ["openai"; "google"; "anthropic"].

Definition models : gmap string (list string) :=
  {[ "openai" := ["gpt-4.1"; "gpt-4.1-mini"; "gpt-4.1-nano"; "gpt-4.5-preview";
                  "gpt-4o"; "gpt-4o-mini"; "o3"; "o4-mini"];
     "google" := ["gemini-2.5-flash-preview-04-17"; "gemini-2.5-pro-preview-03-25";
                  "gemini-2.5-pro-preview-05-06"];
     "anthropic" := ["claude-3-7-sonnet-20250219"; "claude-3-5-haiku-20241022"] ]}.

Section Handlers.

Context (w : world).
(** [TOKEN = os.getenv("TOKEN")]. *)
Context (TOKEN : option string).

Definition get_rini_client : RiniAPIClient := __init__ Default TOKEN Default.

(** The body of the [async with] of [index]: the reply of an early
    [return], if any, and the value of the global afterwards. *)
Definition index_body (current : pyval) : io (option (content * Z) * pyval) :=
  if negb (is_truthy current) then
    try_except
      (session ← create_session w (Some "웹 챗봇 세션") (Some "너는 친절한 AI 비서야.")
                   Default;
       id ← py_getitem session "id";
       mret (None, id))
      (λ e,
         match e with
         | RiniApiException _ _ =>
             Some (mret (Some (Text "Rini API 세션 생성에 실패했습니다. API 키 또는 서비스 상태를 확인해주세요.",
                               500%Z),
                         current))
         | _ => None
         end)
  else mret (None, current).

Definition index : handler (content * Z) :=
  λ a,
    match async_with get_rini_client (index_body (current_session_id a)) a with
    | (Returned (Some early, current), a') =>
        (Returned early, {| current_session_id := current; history := history a' |})
    | (Returned (None, current), a') =>
        (Returned (Page providers models, 200%Z),
         {| current_session_id := current; history := history a' |})
    | (Raised e, a') => (Raised e, a')
    end.

(** The body of the [async with] of [send_message]. *)
Definition send_message_body (current user_message provider model : pyval)
  : io (content * Z) :=
  try_except
    (response ← get_text_from_text_any w user_message provider model current PNone;
     ai_response ← dict_get response "response_text" PNone;
     mret (Json (PDict {[ "ai_response" := ai_response ]}), 200%Z))
    (λ e,
       match e with
       | RiniApiException _ _ =>
           Some (mret (Json (PDict {[ "error" := PStr ("Rini API 오류: " +:+ exn_str w e) ]}),
                       500%Z))
       | _ =>
           if is_Exception e
           then Some (mret (Json (PDict {[ "error" := PStr "메시지 처리 중 알 수 없는 오류가 발생했습니다." ]}),
                            500%Z))
           else None
       end).

(** [send_message], given what [request.get_json()] returns or raises. *)
Definition send_message (get_json : outcome exn pyval) : handler (content * Z) :=
  λ a,
    if negb (is_truthy (current_session_id a)) then
      (Returned (Json (PDict {[ "error" := PStr "세션이 초기화되지 않았습니다." ]}), 400%Z), a)
    else
      match get_json with
      | Raised e => (Raised e, a)
      | Returned data =>
          match py_get data "message" PNone with
          | Raised e => (Raised e, a)
          | Returned user_message =>
              match py_get data "provider" PNone with
              | Raised e => (Raised e, a)
              | Returned provider =>
                  match py_get data "model" PNone with
                  | Raised e => (Raised e, a)
                  | Returned model =>
                      if negb (is_truthy user_message) || negb (is_truthy provider)
                         || negb (is_truthy model)
                      then
                        (Returned
                           (Json (PDict {[ "error" := PStr "메시지, provider 또는 model이 누락되었습니다." ]}),
                            400%Z),
                         a)
                      else
                        async_with get_rini_client
                          (send_message_body (current_session_id a) user_message
                             provider model) a
                  end
              end
          end
      end.

End Handlers.

End web.

(** A server that answers a chat message, an application with a session,
    and a posted message. *)
Definition chat_world : world :=
  fixed_world (Returned (ok_response (PDict {[ "response_text" := PStr "hi" ]}))).

Definition chat_app : web.app :=
  {| web.current_session_id := PStr "s1"; web.history := [] |}.

Definition chat_fields : gmap string pyval :=
  {[ "message" := PStr "hello"; "provider" := PStr "openai"; "model" := PStr "gpt-4o" ]}.

(** * Properties *)

(** Unfolds the monad down to the matches on what the world answers. *)
Ltac run_io :=
  unfold _perform_request, try_except, client_request, response_json,
    httpx.raise_for_status, dict_get, raise, get_self, put_self, emit, lift,
    mbind, io_bind, mret, io_ret; simpl.

Ltac head_of t := lazymatch t with ?f _ => head_of f | _ => t end.

(** ** Traces *)

Lemma requests_app (t1 t2 : list event) :
  requests (t1 ++ t2) = requests t1 ++ requests t2.
Proof. apply omap_app. Qed.

Lemma logged_logged st evs1 evs2 :
  logged (logged st evs1) evs2 = logged st (evs1 ++ evs2).
Proof. unfold logged; simpl. by rewrite app_assoc. Qed.

Lemma new_requests_same st : new_requests st st = [].
Proof. unfold new_requests. by rewrite drop_all. Qed.

Lemma new_requests_logged st evs :
  new_requests st (logged st evs) = requests evs.
Proof.
  unfold new_requests, logged; simpl. rewrite requests_app. apply drop_app_length.
Qed.

(** ** The request primitive *)

Lemma status_error_message_nonempty resp : httpx.status_error_message resp ≠ "".
Proof.
  unfold httpx.status_error_message, httpx.error_type.
  repeat case_match; discriminate.
Qed.

Section PerformRequest.

Context (w : world) (client : http_client) (st : state).
Context (m e : string) (p : option (gmap string pyval)) (j : option pyval)
  (d : option (gmap string pyval)) (f : option (gmap string file_part)).

Lemma perform_request_no_content resp :
  reply w client st (outgoing w st m e p j d f) = Returned resp →
  httpx.is_success resp = true →
  status_code resp = 204%Z →
  _perform_request w client m e p j d f st
  = (Returned PNone, logged st [EvRequest client (outgoing w st m e p j d f)]).
Proof.
  unfold reply, outgoing. intros Hr Hs H204. run_io.
  rewrite Hr; simpl. rewrite Hs, H204; simpl. reflexivity.
Qed.

Lemma perform_request_body resp v :
  reply w client st (outgoing w st m e p j d f) = Returned resp →
  httpx.is_success resp = true →
  status_code resp ≠ 204%Z →
  json resp = Returned v →
  _perform_request w client m e p j d f st
  = (Returned v,
     logged st [EvRequest client (outgoing w st m e p j d f); EvJson resp]).
Proof.
  unfold reply, outgoing, logged. intros Hr Hs H204 Hj. run_io.
  rewrite Hr; simpl. rewrite Hs; simpl.
  apply Z.eqb_neq in H204. rewrite H204; simpl. rewrite Hj, <- app_assoc. reflexivity.
Qed.

(** Whatever happens, exactly one request is added to the trace; the
    events after it are decoding attempts. *)
Lemma perform_request_trace :
  ∃ evs, (_perform_request w client m e p j d f st).2
         = logged st (EvRequest client (outgoing w st m e p j d f) :: evs)
         ∧ requests evs = [].
Proof.
  unfold outgoing, logged. run_io.
  repeat (case_match; simplify_eq/=); rewrite <- ?app_assoc; simpl;
    eexists; (split; [reflexivity | reflexivity]).
Qed.

Lemma perform_request_raises x :
  (_perform_request w client m e p j d f st).1 = Raised x →
  (∃ status detail, x = RiniApiException status detail) ∨ is_Exception x = false.
Proof.
  run_io. repeat (case_match; simplify_eq/=); intros; simplify_eq/=; eauto.
Qed.

Lemma perform_request_transport cls msg :
  reply w client st (outgoing w st m e p j d f) = Raised (RequestError cls msg) →
  _perform_request w client m e p j d f st
  = (Raised (RiniApiException 503 (PStr ("Request to Rini API failed: " +:+ msg))),
     logged st [EvRequest client (outgoing w st m e p j d f)]).
Proof.
  unfold reply, outgoing. intros Hr. run_io. rewrite Hr; simpl. reflexivity.
Qed.

(** The [except httpx.HTTPStatusError] clause, by what decoding the error
    body gives. *)
Lemma perform_request_status_error resp :
  reply w client st (outgoing w st m e p j d f) = Returned resp →
  httpx.is_success resp = false →
  (_perform_request w client m e p j d f st).1
  = match json resp with
    | Returned (PDict body) =>
        Raised (RiniApiException (status_code resp)
                  (default (PStr (httpx.status_error_message resp)) (body !! "detail")))
    | Returned _ =>
        Raised (RiniApiException (status_code resp)
                  (PStr (httpx.status_error_message resp)))
    | Raised x =>
        if is_Exception x
        then Raised (RiniApiException (status_code resp)
                       (PStr (httpx.status_error_message resp)))
        else Raised x
    end.
Proof.
  unfold reply, outgoing. intros Hr Hs. run_io. rewrite Hr; simpl. rewrite Hs; simpl.
  repeat (case_match; simplify_eq/=); reflexivity.
Qed.




End PerformRequest.




(** Claim C2: when the server answers with a status outside the success
    range, a JSON object body with a ["detail"] field [X] gives the domain
    exception detail [X], a body that does not decode gives a non-empty
    generic description (the message of the status error), and in both
    cases the exception has the status of the response. *)
Theorem server_error_detail w client m e p j d f st resp :
  reply w client st (outgoing w st m e p j d f) = Returned resp →
  httpx.is_success resp = false →
  let out := (_perform_request w client m e p j d f st).1 in
  (∀ body X, json resp = Returned (PDict body) → body !! "detail" = Some X →
             out = Raised (RiniApiException (status_code resp) X))
  ∧ (∀ x, json resp = Raised x → is_Exception x = true →
          ∃ description,
            out = Raised (RiniApiException (status_code resp) (PStr description))
            ∧ description = httpx.status_error_message resp
            ∧ description ≠ "").
Proof.
  intros Hr Hs out. subst out.
  rewrite (perform_request_status_error _ _ _ _ _ _ _ _ _ _ Hr Hs). split.
  - intros body X -> HX. by rewrite HX.
  - intros x -> ->. eexists. split; [reflexivity|].
    split; [reflexivity|apply status_error_message_nonempty].
Qed.

Lemma server_error_detail_witness :
  (_perform_request
     (fixed_world (Returned (not_found (Returned (PDict {[ "detail" := PStr "X" ]})))))
     (connection fresh) "GET" "/users/me" None None None None fresh).1
  = Raised (RiniApiException 404 (PStr "X")).
Proof.
  apply (proj1 (server_error_detail
                  (fixed_world
                     (Returned (not_found (Returned (PDict {[ "detail" := PStr "X" ]})))))
                  (connection fresh) "GET" "/users/me" None None None None fresh
                  (not_found (Returned (PDict {[ "detail" := PStr "X" ]})))
                  eq_refl eq_refl)
           {[ "detail" := PStr "X" ]} (PStr "X")); reflexivity.
Defined.

Lemma prefix_refl s : String.prefix s s = true.
Proof.
  induction s as [|c s IH]; simpl; [done|].
  by destruct (ascii_dec c c).
Qed.

Lemma str_contains_append p s : str_contains s (p +:+ s) = true.
Proof.
  induction p as [|c p IH].
  - change ("" +:+ s) with s.
    destruct s as [|a s]; [done|].
    change (String.prefix (String a s) (String a s) || str_contains (String a s) s = true).
    by rewrite prefix_refl.
  - change (String c p +:+ s) with (String c (p +:+ s)).
    destruct s as [|a s]; [done|].
    change (String.prefix (String a s) (String c (p +:+ String a s))
            || str_contains (String a s) (p +:+ String a s) = true).
    rewrite IH. apply orb_true_r.
Qed.

Lemma names_error_detail cls msg :
  names_error ("Request to Rini API failed: " +:+ msg) cls msg
  = negb (String.eqb msg "").
Proof.
  unfold names_error. destruct (String.eqb_spec msg "") as [->|Hmsg].
  - by destruct cls.
  - rewrite str_contains_append. apply orb_true_r.
Qed.

(** Claim C3, as amended: a transport-level failure (any
    [httpx.RequestError], of whatever class) raises the domain exception
    with status 503 and, as detail, the fixed prefix followed by the
    message of the transport error, [str(e)].  That detail names the
    underlying error when the error has a message, and only then: with an
    empty message it is the bare prefix, which has neither the class of
    the error nor any text about it. *)
Theorem transport_failure_503 w client m e p j d f st cls msg :
  reply w client st (outgoing w st m e p j d f) = Raised (RequestError cls msg) →
  let detail := "Request to Rini API failed: " +:+ msg in
  (_perform_request w client m e p j d f st).1
  = Raised (RiniApiException 503 (PStr detail))
  ∧ names_error detail cls msg = negb (String.eqb msg "").
Proof.
  intros Hr detail. subst detail.
  rewrite (perform_request_transport _ _ _ _ _ _ _ _ _ _ _ Hr).
  split; [done|apply names_error_detail].
Qed.

Lemma transport_failure_503_witness :
  (_perform_request
     (fixed_world (Raised (RequestError ConnectError "All connection attempts failed")))
     (connection fresh) "GET" "/users/me" None None None None fresh).1
  = Raised (RiniApiException 503
              (PStr "Request to Rini API failed: All connection attempts failed"))
  ∧ names_error "Request to Rini API failed: All connection attempts failed"
      ConnectError "All connection attempts failed" = true.
Proof.
  apply ((transport_failure_503
                  (fixed_world
                     (Raised (RequestError ConnectError "All connection attempts failed")))
                  (connection fresh) "GET" "/users/me" None None None None fresh
                  ConnectError "All connection attempts failed" eq_refl)).
Defined.

(** Claim C3 as stated fails: httpx raises a read timeout without a
    message, and the detail of the domain exception is then the bare
    prefix, which has neither the class of the error nor any text about it. *)
Lemma read_timeout_not_named :
  reply silent_timeout_world (connection fresh) fresh
    (outgoing silent_timeout_world fresh "GET" "/users/me" None None None None)
  = Raised (RequestError ReadTimeout "")
  ∧ (_perform_request silent_timeout_world (connection fresh)
       "GET" "/users/me" None None None None fresh).1
    = Raised (RiniApiException 503 (PStr "Request to Rini API failed: "))
  ∧ names_error "Request to Rini API failed: " ReadTimeout "" = false.
Proof. split; [reflexivity|]. split; reflexivity. Qed.

(** Claim C6: on a 204 answer the primitive returns [None] and the trace
    ends with the request, so the body is never decoded, whatever it is; on
    any other success status the body is decoded and its value returned. *)
Theorem no_content_or_body w client m e p j d f st resp :
  reply w client st (outgoing w st m e p j d f) = Returned resp →
  httpx.is_success resp = true →
  (status_code resp = 204%Z →
   _perform_request w client m e p j d f st
   = (Returned PNone, logged st [EvRequest client (outgoing w st m e p j d f)]))
  ∧ (status_code resp ≠ 204%Z →
     ∀ v, json resp = Returned v →
          _perform_request w client m e p j d f st
          = (Returned v,
             logged st [EvRequest client (outgoing w st m e p j d f); EvJson resp])).
Proof.
  intros Hr Hs. split.
  - by apply perform_request_no_content.
  - intros H204 v. by apply perform_request_body.
Qed.

Lemma no_content_or_body_witness :
  _perform_request (fixed_world (Returned no_content)) (connection fresh)
    "DELETE" "/sessions/s1" None None None None fresh
  = (Returned PNone,
     logged fresh
       [EvRequest (connection fresh)
          (outgoing (fixed_world (Returned no_content)) fresh
             "DELETE" "/sessions/s1" None None None None)]).
Proof.
  apply (proj1 (no_content_or_body (fixed_world (Returned no_content))
                  (connection fresh) "DELETE" "/sessions/s1" None None None None
                  fresh no_content eq_refl eq_refl)).
  reflexivity.
Defined.

(** ** Requests sent by the methods *)

Lemma request_run w m e p j d f st :
  _request w m e p j d f st = _perform_request w (connection st) m e p j d f st.
Proof.
  unfold _request, connection, get_self, mbind, io_bind; simpl.
  destruct (_http_client (self st)); reflexivity.
Qed.

Lemma request_trace w m e p j d f st :
  ∃ evs, (_request w m e p j d f st).2
         = logged st (EvRequest (connection st) (outgoing w st m e p j d f) :: evs)
         ∧ requests evs = [].
Proof. rewrite request_run. apply perform_request_trace. Qed.

Lemma sent_request w m e p j d f st :
  sent (_request w m e p j d f) st = [outgoing w st m e p j d f].
Proof.
  unfold sent. destruct (request_trace w m e p j d f st) as (evs & -> & Hevs).
  rewrite new_requests_logged. simpl. by rewrite Hevs.
Qed.

(** A continuation that only computes leaves the state of the request. *)
Lemma request_then_ret w m e p j d f (v : pyval) st :
  ((_ ← _request w m e p j d f; mret v) st).2 = (_request w m e p j d f st).2.
Proof.
  unfold mbind, io_bind, mret, io_ret. by destruct (_request w m e p j d f st) as [[]].
Qed.

Lemma sent_request_then_ret w m e p j d f (v : pyval) st :
  sent (_ ← _request w m e p j d f; mret v) st = [outgoing w st m e p j d f].
Proof. unfold sent. rewrite request_then_ret. apply sent_request. Qed.

Lemma create_user_trace w st :
  trace (create_user_and_set_token w st).2
  = trace (_request w "POST" "/users/" None None None None st).2.
Proof.
  unfold create_user_and_set_token, py_contains, py_getitem, set_token, dict_get,
    raise, get_self, put_self, mbind, io_bind, mret, io_ret.
  destruct (_request w "POST" "/users/" None None None None st) as [[v|x] st1]; [|done].
  simpl. repeat (case_match; simplify_eq/=); reflexivity.
Qed.

Lemma sent_create_user w st :
  sent (create_user_and_set_token w) st
  = [outgoing w st "POST" "/users/" None None None None].
Proof.
  unfold sent, new_requests. rewrite create_user_trace. apply sent_request.
Qed.

(** The three ways the image method ends. *)
Lemma image_cases w path provider model prompt session_id st :
  let m := get_text_from_image_and_text w path provider model prompt session_id in
  (path_exists w path = false
   ∧ m st = (Raised (FileNotFoundError ("Image file not found: " +:+ path)), st))
  ∨ (∃ msg, m st = (Raised (OSError msg), logged st [EvOpen path]))
  ∨ (∃ form files,
       m st = _request w "POST" "/llm/image-completion/" None None (Some form)
                (Some files) (logged st [EvOpen path])
       ∧ ∀ k, k ∈ omitted_None
                    (GetTextFromImageAndText path provider model prompt session_id) →
              form !! k = None).
Proof.
  intros m. subst m. unfold get_text_from_image_and_text.
  destruct (path_exists w path); simpl; [right|left; done].
  unfold emit, raise, mbind, io_bind; simpl.
  destruct (open_rb w path) as [msg|]; [left; eauto|right].
  do 2 eexists. split; [reflexivity|].
  intros k Hk. rewrite lookup_fmap.
  apply fmap_None, map_lookup_filter_None_2. left.
  destruct model as [[|]|], prompt as [[|]|], session_id as [[|]|]; simpl in *;
    repeat (apply elem_of_cons in Hk as [->|Hk]; [by simplify_map_eq|]);
    by apply elem_of_nil in Hk.
Qed.

Lemma sent_image w path provider model prompt session_id st :
  let c := GetTextFromImageAndText path provider model prompt session_id in
  sent (invoke w c) st = []
  ∨ ∃ form files,
      sent (invoke w c) st
      = [outgoing w st "POST" "/llm/image-completion/" None None (Some form)
           (Some files)]
      ∧ ∀ k, k ∈ omitted_None c → form !! k = None.
Proof.
  simpl. unfold sent.
  destruct (image_cases w path provider model prompt session_id st)
    as [[_ ->]|[[msg ->]|(form & files & -> & Hform)]]; simpl.
  - left. apply new_requests_same.
  - left. by rewrite new_requests_logged.
  - right. exists form, files. split; [|done].
    destruct (request_trace w "POST" "/llm/image-completion/" None None (Some form)
                (Some files) (logged st [EvOpen path])) as (evs & -> & Hevs).
    rewrite logged_logged, new_requests_logged, requests_app. simpl.
    by rewrite Hevs.
Qed.

(** The two ways [add_memory_entry] goes: a keyword clashes with a
    parameter and nothing happens, or the body runs and sends the request. *)
Lemma add_memory_entry_cases w session_id memory_type scope content kwargs st :
  let m := add_memory_entry w session_id memory_type scope content kwargs in
  (clashing kwargs ≠ [] ∧ ∃ msg, m st = (Raised (TypeError msg), st))
  ∨ (clashing kwargs = []
     ∧ m st = _request w "POST" ("/sessions/" +:+ session_id +:+ "/memory") None
                (Some (PDict (kwargs ∪ {[ "memory_type" := PStr memory_type;
                                          "scope" := PStr scope;
                                          "content" := PStr content ]})))
                None None st).
Proof.
  intros m. subst m. unfold add_memory_entry.
  destruct (clashing kwargs) as [|k ks]; [right|left]; [done|].
  split; [done|]. by eexists.
Qed.

Lemma sent_add_memory w session_id memory_type scope content kwargs st :
  let c := AddMemoryEntry session_id memory_type scope content kwargs in
  (clashing kwargs ≠ [] ∧ sent (invoke w c) st = [])
  ∨ (clashing kwargs = []
     ∧ sent (invoke w c) st
       = [outgoing w st "POST" ("/sessions/" +:+ session_id +:+ "/memory") None
            (Some (PDict (kwargs ∪ {[ "memory_type" := PStr memory_type;
                                      "scope" := PStr scope;
                                      "content" := PStr content ]})))
            None None]).
Proof.
  simpl. unfold sent.
  destruct (add_memory_entry_cases w session_id memory_type scope content kwargs st)
    as [[Hk [msg ->]]|[Hk ->]]; simpl.
  - left. split; [done|]. apply new_requests_same.
  - right. split; [done|]. apply sent_request.
Qed.

(** Turns [sent (method ...) st] into the one request the method sends. *)
Ltac to_request :=
  lazymatch goal with
  | |- context [sent (create_user_and_set_token _) _] => rewrite sent_create_user
  | |- context [sent ?m _] =>
      let h := head_of m in
      unfold h; cbv zeta;
      first [ rewrite sent_request | rewrite sent_request_then_ret ]
  end.

Ltac no_key_in_request :=
  unfold carries, outgoing; simpl;
  intros [(?&?&[? Hk])|[(?&?&[? Hk])|(?&?&[? Hk])]]; simplify_eq/=;
  repeat case_match; simplify_map_eq.

Ltac key_in_request :=
  unfold carries_value, outgoing; simpl;
  first [ left; eexists; split; [reflexivity|]
        | right; left; eexists; split; [reflexivity|] ];
  repeat case_match; by simplify_map_eq.

Lemma omitted_None_absent w c st :
  Forall (λ r, Forall (λ k, ¬ carries r k) (omitted_None c)) (sent (invoke w c) st).
Proof.
  destruct c; simpl invoke;
    lazymatch goal with
    | |- context [get_text_from_image_and_text] => idtac
    | |- context [add_memory_entry] =>
        simpl; apply Forall_forall; intros ? _; by apply Forall_nil
    | |- _ => to_request; apply Forall_singleton
    end.
  all: try (simpl; by constructor).
  all: try (repeat match goal with a : option _ |- _ => destruct a end; simpl;
            repeat (apply Forall_cons; split; [no_key_in_request|]);
            by apply Forall_nil).
  match goal with
  | |- context [sent (get_text_from_image_and_text w ?f ?p ?m ?pr ?sid) st] =>
      destruct (sent_image w f p m pr sid st) as [Hs|(form & files & Hs & Hform)]
  end; simpl in Hs; rewrite Hs; [by apply Forall_nil|].
  apply Forall_singleton, Forall_forall. intros k Hk.
  unfold carries, outgoing; simpl.
  intros [(?&?&?)|[(?&?&?)|(?&?&[? Hf])]]; simplify_eq/=.
  by rewrite (Hform k Hk) in Hf.
Qed.

Lemma omitted_defaulted_present w c st :
  Forall (λ r, Forall (λ kv, carries_value r kv.1 kv.2) (omitted_defaulted c))
    (sent (invoke w c) st).
Proof.
  destruct c; simpl invoke;
    lazymatch goal with
    | |- context [get_text_from_image_and_text] => idtac
    | |- context [add_memory_entry] =>
        simpl; apply Forall_forall; intros ? _; by apply Forall_nil
    | |- _ => to_request; apply Forall_singleton
    end.
  all: try (simpl; by constructor).
  all: try (repeat match goal with a : arg _ |- _ => destruct a end; simpl;
            repeat (apply Forall_cons; split; [key_in_request|]);
            by apply Forall_nil).
  simpl. apply Forall_forall. intros r _. by apply Forall_nil.
Qed.

(** Claim C4: whatever a typed method is called with, no request it
    sends has, in its query parameters, its JSON body or its form fields, the
    key of an optional argument (a parameter declared [Optional[...] = None])
    that the caller left out: an absent optional argument is omitted, not
    sent as null.  The parameters with a default of their own
    ([memory_mode], [skip], [limit], ...) are not optional in that sense:
    they always have a value. *)
Theorem omitted_arguments w c st :
  Forall (λ r, Forall (λ k, ¬ carries r k) (omitted_None c)) (sent (invoke w c) st).
Proof. apply omitted_None_absent. Qed.

(** ** The stored token *)

Lemma get_headers_bearer w (c : RiniAPIClient) :
  is_truthy (token c) = true →
  _get_headers w c !! "Authorization" = Some ("Bearer " +:+ py_str w (token c)).
Proof. intros Ht. unfold _get_headers. rewrite Ht. apply lookup_insert_eq. Qed.

Lemma get_headers_no_bearer w (c : RiniAPIClient) :
  is_truthy (token c) = false → _get_headers w c !! "Authorization" = None.
Proof. intros Ht. unfold _get_headers. by rewrite Ht. Qed.

Lemma create_user_stores_token w st body tok :
  (create_user_and_set_token w st).1 = Returned (PDict body) →
  body !! "access_token" = Some tok →
  token (self (create_user_and_set_token w st).2) = tok.
Proof.
  unfold create_user_and_set_token, py_contains, py_getitem, set_token, dict_get,
    raise, get_self, put_self, mbind, io_bind, mret, io_ret.
  destruct (_request w "POST" "/users/" None None None None st) as [[v|x] st1];
    [|done].
  simpl. intros Hv Htok.
  destruct v as [| | | | | |d]; simpl in *;
    try (repeat (case_match; simplify_eq/=); done).
  destruct (bool_decide (d = ∅)) eqn:Hd; simpl in *.
  - apply bool_decide_eq_true in Hd. simplify_eq/=.
  - destruct (bool_decide (is_Some (d !! "access_token"))) eqn:Hin; simpl in *.
    + destruct (d !! "access_token") as [v|] eqn:Hl; simpl in *; simplify_eq/=.
      congruence.
    + apply bool_decide_eq_false in Hin. simplify_eq/=.
      destruct Hin. by rewrite Htok.
Qed.

(** What a call does to the state: the trace grows, every request it adds
    has the headers of the client it started from, and only the
    token-issuing call touches the client. *)
Lemma invoke_effect w c st :
  ∃ evs, trace (invoke w c st).2 = trace st ++ evs
         ∧ Forall (λ r, headers r = _get_headers w (self st)) (requests evs)
         ∧ (c ≠ CreateUserAndSetToken → self (invoke w c st).2 = self st).
Proof.
  destruct c; simpl invoke;
    lazymatch goal with
    | |- context [get_text_from_image_and_text] => idtac
    | |- context [add_memory_entry w ?i ?mt ?sc ?ct ?kw st] =>
        destruct (add_memory_entry_cases w i mt sc ct kw st) as [[_ [msg ->]]|[_ ->]];
        [ exists []; rewrite app_nil_r; by repeat split
        | lazymatch goal with
          | |- context [_request w ?m ?e ?p ?j ?d ?f st] =>
              destruct (request_trace w m e p j d f st) as (evs & -> & Hevs)
          end;
          eexists; split; [reflexivity|]; simpl; rewrite Hevs;
          split; [by apply Forall_singleton|done] ]
    | |- context [create_user_and_set_token] =>
        rewrite create_user_trace;
        destruct (request_trace w "POST" "/users/" None None None None st)
          as (evs & -> & Hevs);
        eexists; split; [reflexivity|]; simpl; rewrite Hevs;
        split; [by apply Forall_singleton|done]
    | |- context [(?m st).2] =>
        let h := head_of m in
        unfold h; cbv zeta; rewrite ?request_then_ret;
        lazymatch goal with
        | |- context [_request w ?m ?e ?p ?j ?d ?f st] =>
            destruct (request_trace w m e p j d f st) as (evs & -> & Hevs)
        end;
        eexists; split; [reflexivity|]; simpl; rewrite Hevs;
        split; [by apply Forall_singleton|done]
    end.
  match goal with
  | |- context [get_text_from_image_and_text w ?f ?p ?m ?pr ?sid st] =>
      destruct (image_cases w f p m pr sid st)
        as [[_ ->]|[[msg ->]|(form & files & -> & _)]]
  end.
  - exists []. rewrite app_nil_r. by repeat split.
  - eexists; split; [reflexivity|]. by repeat split.
  - destruct (request_trace w "POST" "/llm/image-completion/" None None (Some form)
                (Some files) (logged st [EvOpen image_file_path]))
      as (evs & -> & Hevs).
    rewrite logged_logged. eexists; split; [reflexivity|]. simpl. rewrite Hevs.
    split; [by apply Forall_singleton|done].
Qed.

Lemma invoke_all_effect w cs st :
  Forall (λ c, c ≠ CreateUserAndSetToken) cs →
  self (invoke_all w cs st) = self st
  ∧ ∃ evs, trace (invoke_all w cs st) = trace st ++ evs
           ∧ Forall (λ r, headers r = _get_headers w (self st)) (requests evs).
Proof.
  unfold invoke_all. revert st.
  induction cs as [|c cs IH]; intros st Hcs; simpl.
  - split; [done|]. exists []. by rewrite app_nil_r.
  - apply Forall_cons in Hcs as [Hc Hcs].
    destruct (invoke_effect w c st) as (evs1 & Ht1 & Hh1 & Hself).
    destruct (IH (invoke w c st).2 Hcs) as (Hs & evs2 & Ht2 & Hh2).
    rewrite Hself in Hs, Hh2 by done. split; [done|].
    exists (evs1 ++ evs2). rewrite Ht2, Ht1, app_assoc. split; [done|].
    rewrite requests_app. by apply Forall_app.
Qed.

Lemma get_headers_token w (c1 c2 : RiniAPIClient) :
  token c1 = token c2 → _get_headers w c1 = _get_headers w c2.
Proof. unfold _get_headers. by intros ->. Qed.

(** What one step of a run does: the trace grows, every request it adds
    has the headers of the client it started from, and the token stays
    unless the step is [set_token] or the user-creation call. *)
Lemma perform_effect w a st :
  ∃ evs, trace (perform w a st) = trace st ++ evs
         ∧ Forall (λ r, headers r = _get_headers w (self st)) (requests evs)
         ∧ (keeps_token a = true → token (self (perform w a st)) = token (self st)).
Proof.
  destruct a as [| |tok|c]; simpl.
  - exists []. rewrite app_nil_r.
    unfold __aenter__, get_self, put_self, mbind, io_bind, mret, io_ret; simpl.
    by destruct (_http_client (self st)).
  - exists []. rewrite app_nil_r.
    unfold __aexit__, get_self, put_self, mbind, io_bind, mret, io_ret; simpl.
    by destruct (_http_client (self st)).
  - exists []. by rewrite app_nil_r.
  - destruct (invoke_effect w c st) as (evs & Ht & Hh & Hs).
    exists evs. split; [done|]. split; [done|].
    intros Hk. rewrite Hs; [done|]. by intros ->.
Qed.

Lemma perform_all_effect w acts st :
  Forall (λ a, keeps_token a = true) acts →
  token (self (perform_all w acts st)) = token (self st)
  ∧ ∃ evs, trace (perform_all w acts st) = trace st ++ evs
           ∧ Forall (λ r, headers r = _get_headers w (self st)) (requests evs).
Proof.
  unfold perform_all. revert st.
  induction acts as [|a acts IH]; intros st Hacts; simpl.
  - split; [done|]. exists []. by rewrite app_nil_r.
  - apply Forall_cons in Hacts as [Ha Hacts].
    destruct (perform_effect w a st) as (evs1 & Ht1 & Hh1 & Htok).
    destruct (IH (perform w a st) Hacts) as (Hs & evs2 & Ht2 & Hh2).
    specialize (Htok Ha).
    rewrite (get_headers_token w _ _ Htok) in Hh2.
    split; [by rewrite Hs|].
    exists (evs1 ++ evs2). rewrite Ht2, Ht1, app_assoc. split; [done|].
    rewrite requests_app. by apply Forall_app.
Qed.

Lemma perform_all_snoc w acts a st :
  perform_all w (acts ++ [a]) st = perform w a (perform_all w acts st).
Proof. unfold perform_all. by rewrite foldl_app. Qed.

(** Claim C5, as amended: after a user-creation call that returns an
    object with an ["access_token"] field, the stored token is that field;
    and when the token is truthy (a non-empty string), every request the
    client sends from then on has the header
    [Authorization: Bearer <token>], whatever is done with the client
    (entering, exiting, calling typed methods), up to and including the
    first [set_token] or user-creation call, which may replace the token. *)
Theorem token_stored_and_sent w st body tok :
  (create_user_and_set_token w st).1 = Returned (PDict body) →
  body !! "access_token" = Some tok →
  let st' := (create_user_and_set_token w st).2 in
  token (self st') = tok
  ∧ (is_truthy tok = true →
     ∀ acts a, Forall (λ a', keeps_token a' = true) acts →
               Forall (has_bearer (py_str w tok))
                 (new_requests st' (perform_all w (acts ++ [a]) st'))).
Proof.
  intros Hres Hbody st'. subst st'.
  pose proof (create_user_stores_token w st body tok Hres Hbody) as Htok.
  split; [done|]. intros Htruthy acts a Hacts.
  set (st' := (create_user_and_set_token w st).2) in *.
  destruct (perform_all_effect w acts st' Hacts) as (Hself & evs1 & Ht1 & Hh1).
  destruct (perform_effect w a (perform_all w acts st')) as (evs2 & Ht2 & Hh2 & _).
  rewrite (get_headers_token w _ _ Hself) in Hh2.
  unfold new_requests. rewrite perform_all_snoc, Ht2, Ht1, <- app_assoc, requests_app.
  rewrite drop_app_length, requests_app.
  eapply Forall_impl; [apply Forall_app; split; [exact Hh1|exact Hh2]|].
  intros r Hr. unfold has_bearer. rewrite Hr, <- Htok.
  apply get_headers_bearer. by rewrite Htok.
Qed.

Lemma token_stored_and_sent_witness :
  token (self (create_user_and_set_token token_world fresh).2) = PStr "secret"
  ∧ Forall (has_bearer "secret")
      (new_requests (create_user_and_set_token token_world fresh).2
         (perform_all token_world
            [Enter; Call GetMyInfo; Exit; Call CreateUserAndSetToken]
            (create_user_and_set_token token_world fresh).2)).
Proof.
  destruct (token_stored_and_sent token_world fresh
              {[ "id" := PInt 7; "access_token" := PStr "secret" ]} (PStr "secret")
              eq_refl eq_refl) as [Htok Hsent].
  split; [exact Htok|].
  apply (Hsent eq_refl [Enter; Call GetMyInfo; Exit] (Call CreateUserAndSetToken)).
  repeat constructor.
Defined.

(** Claim C5 as stated fails twice over: when the server returns an empty
    access token, the client stores it and the next request has no
    [Authorization] header; and after [set_token] with another token the
    next request has the header of that other token. *)
Lemma bearer_not_always_sent :
  ((create_user_and_set_token empty_token_world fresh).1
   = Returned (PDict {[ "access_token" := PStr "" ]})
   ∧ token (self (create_user_and_set_token empty_token_world fresh).2) = PStr ""
   ∧ ¬ Forall (has_bearer "")
         (sent (get_my_info empty_token_world)
            (create_user_and_set_token empty_token_world fresh).2))
  ∧ (token (self (create_user_and_set_token token_world fresh).2) = PStr "secret"
     ∧ ¬ Forall (has_bearer "secret")
           (new_requests (create_user_and_set_token token_world fresh).2
              (perform_all token_world [SetToken (PStr "other"); Call GetMyInfo]
                 (create_user_and_set_token token_world fresh).2))).
Proof.
  split.
  - split; [reflexivity|]. split; [reflexivity|].
    unfold get_my_info. rewrite sent_request.
    intros H. apply Forall_cons in H as [H _]. vm_compute in H. discriminate H.
  - split; [reflexivity|].
    change (perform_all token_world [SetToken (PStr "other"); Call GetMyInfo]
              (create_user_and_set_token token_world fresh).2)
      with (get_my_info token_world
              (set_token (PStr "other")
                 (create_user_and_set_token token_world fresh).2).2).2.
    intros H. vm_compute in H. apply Forall_cons in H as [H _]. discriminate H.
Qed.

(** ** Marshalling *)

(** Claim C7: the image method called with a path that does not exist
    raises [FileNotFoundError], which is not the domain exception, and
    leaves the state as it was: no request is sent and no file opened. *)
Theorem missing_image_fails_first w path provider model prompt session_id st :
  path_exists w path = false →
  get_text_from_image_and_text w path provider model prompt session_id st
  = (Raised (FileNotFoundError ("Image file not found: " +:+ path)), st)
  ∧ sent (get_text_from_image_and_text w path provider model prompt session_id) st = []
  ∧ ¬ only_domain_exception
        (get_text_from_image_and_text w path provider model prompt session_id st).1.
Proof.
  intros Hp.
  assert (get_text_from_image_and_text w path provider model prompt session_id st
          = (Raised (FileNotFoundError ("Image file not found: " +:+ path)), st)) as Hrun.
  { unfold get_text_from_image_and_text. by rewrite Hp. }
  split; [done|]. unfold sent. rewrite Hrun. split; [apply new_requests_same|].
  intros H. by destruct (H _ eq_refl) as (? & ? & ?).
Qed.

Lemma missing_image_fails_first_witness :
  get_text_from_image_and_text (fixed_world (Returned (ok_response PNone)))
    "cat.png" "openai" None (Some "What is this?") None fresh
  = (Raised (FileNotFoundError "Image file not found: cat.png"), fresh).
Proof.
  apply (proj1 (missing_image_fails_first (fixed_world (Returned (ok_response PNone)))
                  "cat.png" "openai" None (Some "What is this?") None fresh eq_refl)).
Defined.

(** Claim C8: [create_session(alias="A")], with no system prompt and the
    default memory mode, sends one request whose JSON body is the object
    with exactly the keys ["memory_mode"], bound to ["auto"], and
    ["alias"], bound to ["A"]. *)
Theorem create_session_alias_only w st :
  ∃ body,
    sent (create_session w (Some "A") None Default) st
    = [outgoing w st "POST" "/sessions/" None (Some (PDict body)) None None]
    ∧ body = {[ "memory_mode" := PStr "auto"; "alias" := PStr "A" ]}
    ∧ dom body = {[ "memory_mode"; "alias" ]}.
Proof.
  exists {[ "memory_mode" := PStr "auto"; "alias" := PStr "A" ]}.
  split; [|split; [reflexivity|]].
  - unfold create_session. cbv zeta. rewrite sent_request. reflexivity.
  - rewrite dom_insert_L, dom_singleton_L. reflexivity.
Qed.




Lemma forget_falsy_same w c st : invoke w (forget_falsy c) st = invoke w c st.
Proof.
  destruct c; try reflexivity; simpl;
    repeat match goal with
           | a : option string |- _ => destruct a as [[|]|]
           | a : option (gmap string pyval) |- _ => destruct a as [params|]
           end; try reflexivity.
  all: unfold blank_dict; destruct (bool_decide (params = ∅)) eqn:Hparams;
    try reflexivity.
  all: apply bool_decide_eq_true in Hparams; subst params; reflexivity.
Qed.

(** Where the test is [is not None], an empty string is kept. *)
Lemma create_session_keeps_empty_alias w st :
  Forall (λ r, carries_value r "alias" (PStr ""))
    (sent (create_session w (Some "") None Default) st).
Proof.
  unfold create_session. cbv zeta. rewrite sent_request.
  apply Forall_singleton. key_in_request.
Qed.

(** Claim C10: in the methods that test optional arguments by truthiness,
    a call with a falsy argument (an empty string, an empty dictionary)
    runs exactly as the call with [None] in its place; so
    [get_text_from_text] with [session_id = ""] sends no ["session_id"]
    key. *)
Theorem falsy_arguments_are_dropped w c st :
  invoke w (forget_falsy c) st = invoke w c st
  ∧ ∀ text provider model llm_params,
      Forall (λ r, ¬ carries r "session_id")
        (sent (get_text_from_text w text provider model (Some "") llm_params) st).
Proof.
  split; [apply forget_falsy_same|].
  intros text provider model llm_params.
  unfold get_text_from_text. cbv zeta. rewrite sent_request.
  apply Forall_singleton. no_key_in_request.
Qed.

(** * Further properties *)

(** ** The request primitive, continued *)

Lemma connections_app (t1 t2 : list event) :
  connections (t1 ++ t2) = connections t1 ++ connections t2.
Proof. apply omap_app. Qed.

Lemma connections_decodes evs : requests evs = [] → connections evs = [].
Proof.
  induction evs as [|[] evs IH]; simpl; intros H; try done; by apply IH.
Qed.

(** X1: [_request] sends exactly one request whatever the transport
    answers, on the stored connection or, when there is none, on a one-shot
    connection bound to the base URL and the timeout; it leaves the client
    object, stored connection included, as it was. *)
Theorem request_sent_once w m e p j d f st :
  let st' := (_request w m e p j d f st).2 in
  sent (_request w m e p j d f) st = [outgoing w st m e p j d f]
  ∧ (∃ evs, trace st' = trace st ++ evs ∧ connections evs = [connection st])
  ∧ self st' = self st.
Proof.
  intros st'. subst st'.
  destruct (request_trace w m e p j d f st) as (evs & Hst & Hevs).
  split; [apply sent_request|]. rewrite Hst. split; [|done].
  eexists. split; [reflexivity|]. simpl. by rewrite (connections_decodes _ Hevs).
Qed.

(** X2: the primitive returns a value only when the transport answered
    with a success status: [None] for 204, the decoded body otherwise.  It
    never returns the body of an error response. *)
Theorem perform_request_returns w client m e p j d f st v :
  (_perform_request w client m e p j d f st).1 = Returned v →
  ∃ resp, reply w client st (outgoing w st m e p j d f) = Returned resp
          ∧ httpx.is_success resp = true
          ∧ (status_code resp = 204%Z ∧ v = PNone
             ∨ status_code resp ≠ 204%Z ∧ json resp = Returned v).
Proof.
  unfold reply, outgoing. run_io.
  destruct (send w _ client _) as [resp|x] eqn:Hr; simpl.
  - destruct (httpx.is_success resp) eqn:Hs; simpl.
    + destruct (status_code resp =? 204)%Z eqn:H204; simpl.
      * intros [= <-]. exists resp. apply Z.eqb_eq in H204. eauto.
      * apply Z.eqb_neq in H204.
        destruct (json resp) as [v'|x] eqn:Hj; simpl.
        -- intros [= <-]. exists resp. eauto 10.
        -- intros Hv. exfalso. revert Hv.
           repeat (case_match; simplify_eq/=); done.
    + intros Hv. exfalso. revert Hv. repeat (case_match; simplify_eq/=); done.
  - intros Hv. exfalso. revert Hv. repeat (case_match; simplify_eq/=); done.
Qed.

Lemma perform_request_returns_witness :
  ∃ resp, reply (fixed_world (Returned (ok_response (PInt 1)))) (connection fresh) fresh
            (outgoing (fixed_world (Returned (ok_response (PInt 1)))) fresh
               "GET" "/users/me" None None None None) = Returned resp
          ∧ httpx.is_success resp = true
          ∧ (status_code resp = 204%Z ∧ PInt 1 = PNone
             ∨ status_code resp ≠ 204%Z ∧ json resp = Returned (PInt 1)).
Proof.
  apply (perform_request_returns (fixed_world (Returned (ok_response (PInt 1))))
           (connection fresh) "GET" "/users/me" None None None None fresh (PInt 1)).
  reflexivity.
Defined.

(** X3: every domain exception the primitive raises has the status of
    an error response, or comes from an exception raised by the transport
    or by decoding: the status of the response an HTTP status error
    carries, 503 with the transport error's text for a request error, 500
    with the error's text for any other. *)
Theorem domain_exception_origin w client m e p j d f st status detail :
  (_perform_request w client m e p j d f st).1
  = Raised (RiniApiException status detail) →
  let answer := reply w client st (outgoing w st m e p j d f) in
  (∃ resp, answer = Returned resp ∧ httpx.is_success resp = false
           ∧ status = status_code resp)
  ∨ (∃ x, (answer = Raised x ∨ ∃ resp, answer = Returned resp ∧ json resp = Raised x)
          ∧ match x with
            | HTTPStatusError _ resp => status = status_code resp
            | RequestError _ msg =>
                status = 503%Z
                ∧ detail = PStr ("Request to Rini API failed: " +:+ msg)
            | _ =>
                status = 500%Z
                ∧ detail = PStr ("An unexpected client-side error occurred: "
                                 +:+ exn_str w x)
            end).
Proof.
  unfold reply, outgoing. run_io.
  destruct (send w _ client _) as [resp|x] eqn:Hr; simpl.
  - destruct (httpx.is_success resp) eqn:Hs; simpl.
    + destruct (status_code resp =? 204)%Z eqn:H204; simpl; [done|].
      destruct (json resp) as [v'|x] eqn:Hj; simpl; [done|].
      intros Hx. right. exists x. split; [eauto|].
      revert Hx. destruct x; simpl; repeat (case_match; simplify_eq/=);
        intros; by simplify_eq/=.
    + intros Hx. left. exists resp. split; [done|]. split; [done|].
      revert Hx. repeat (case_match; simplify_eq/=); intros; by simplify_eq/=.
  - intros Hx. right. exists x. split; [eauto|].
    revert Hx. destruct x; simpl; repeat (case_match; simplify_eq/=);
      intros; by simplify_eq/=.
Qed.

Lemma domain_exception_origin_witness :
  ∃ cls msg,
    reply timeout_world (connection fresh) fresh
      (outgoing timeout_world fresh "GET" "/users/me" None None None None)
    = Raised (RequestError cls msg).
Proof.
  destruct (domain_exception_origin timeout_world (connection fresh)
              "GET" "/users/me" None None None None fresh
              503 (PStr "Request to Rini API failed: timed out") eq_refl)
    as [(resp & Hr & _)|(x & [Hr|(resp & Hr & _)] & _)].
  - discriminate Hr.
  - by exists ReadTimeout, "timed out".
  - discriminate Hr.
Defined.

(** X4: an error response whose body is a JSON object without
    ["detail"], or JSON that is no object at all, gives the generic
    description as detail, with the status of the response. *)
Theorem server_error_without_detail w client m e p j d f st resp :
  reply w client st (outgoing w st m e p j d f) = Returned resp →
  httpx.is_success resp = false →
  let generic :=
    Raised (RiniApiException (status_code resp)
              (PStr (httpx.status_error_message resp))) in
  (∀ body, json resp = Returned (PDict body) → body !! "detail" = None →
           (_perform_request w client m e p j d f st).1 = generic)
  ∧ (∀ v, json resp = Returned v → (∀ body, v ≠ PDict body) →
          (_perform_request w client m e p j d f st).1 = generic).
Proof.
  intros Hr Hs generic. subst generic.
  rewrite (perform_request_status_error _ _ _ _ _ _ _ _ _ _ Hr Hs). split.
  - intros body -> Hb. by rewrite Hb.
  - intros v -> Hv. destruct v; try done. by destruct (Hv d0).
Qed.

Lemma server_error_without_detail_witness :
  (_perform_request
     (fixed_world (Returned (not_found (Returned (PList [PStr "detail"])))))
     (connection fresh) "GET" "/users/me" None None None None fresh).1
  = Raised (RiniApiException 404
              (PStr (httpx.status_error_message
                       (not_found (Returned (PList [PStr "detail"])))))).
Proof.
  apply (proj2 (server_error_without_detail
                  (fixed_world (Returned (not_found (Returned (PList [PStr "detail"])))))
                  (connection fresh) "GET" "/users/me" None None None None fresh
                  (not_found (Returned (PList [PStr "detail"])))
                  eq_refl eq_refl)
           (PList [PStr "detail"])); [reflexivity|discriminate].
Defined.

(** ** Construction and life cycle *)

Lemma lstrip_slash_other c s : c ≠ "/"%char → lstrip_slash (String c s) = String c s.
Proof. intros Hc. simpl. repeat case_match; try done; by destruct Hc. Qed.

Lemma lstrip_slash_spec s :
  ∃ n, s = slashes n +:+ lstrip_slash s
       ∧ ∀ s', lstrip_slash s ≠ String "/"%char s'.
Proof.
  induction s as [|c s (n & Hs & Hn)].
  - exists 0. by split.
  - destruct (decide (c = "/"%char)) as [->|Hc].
    + exists (S n). split; [|simpl; exact Hn].
      change (String "/" s = String "/" (slashes n +:+ lstrip_slash s)). by f_equal.
    + exists 0. rewrite (lstrip_slash_other _ _ Hc).
      split; [done|]. by intros s' [= ? _].
Qed.

Lemma list_rev_app s1 s2 :
  String.list_ascii_of_string (String.rev_app s1 s2)
  = rev (String.list_ascii_of_string s1) ++ String.list_ascii_of_string s2.
Proof.
  revert s2. induction s1 as [|c s1 IH]; intros s2; simpl; [done|].
  by rewrite IH, <- app_assoc.
Qed.

Lemma list_rev s :
  String.list_ascii_of_string (String.rev s) = rev (String.list_ascii_of_string s).
Proof. unfold String.rev. by rewrite list_rev_app, app_nil_r. Qed.

Lemma list_append s1 s2 :
  String.list_ascii_of_string (s1 +:+ s2)
  = String.list_ascii_of_string s1 ++ String.list_ascii_of_string s2.
Proof. induction s1 as [|c s1 IH]; simpl; [done|]. by rewrite IH. Qed.

Lemma list_slashes n :
  String.list_ascii_of_string (slashes n) = replicate n "/"%char.
Proof. induction n as [|n IH]; simpl; [done|]. by rewrite IH. Qed.

Lemma list_inj s1 s2 :
  String.list_ascii_of_string s1 = String.list_ascii_of_string s2 → s1 = s2.
Proof.
  intros H. rewrite <- (String.string_of_list_ascii_of_string s1),
    <- (String.string_of_list_ascii_of_string s2). by rewrite H.
Qed.

Lemma rev_replicate {A} n (x : A) : rev (replicate n x) = replicate n x.
Proof.
  induction n as [|n IH]; simpl; [done|].
  rewrite IH. by rewrite <- (replicate_cons_app).
Qed.

Lemma ends_with_slash_last s :
  ends_with_slash s = true ↔ last (String.list_ascii_of_string s) = Some "/"%char.
Proof.
  induction s as [|c s IH]; simpl; [done|].
  destruct s as [|c' s]; simpl in *.
  - rewrite bool_decide_eq_true. split; [by intros ->|by intros [= ->]].
  - exact IH.
Qed.

Lemma rstrip_slash_spec s :
  (∃ n, s = rstrip_slash s +:+ slashes n) ∧ ends_with_slash (rstrip_slash s) = false.
Proof.
  unfold rstrip_slash.
  destruct (lstrip_slash_spec (String.rev s)) as (n & Hs & Hn).
  set (t := lstrip_slash (String.rev s)) in *.
  split.
  - exists n. apply list_inj. rewrite list_append, list_rev, list_slashes.
    apply (f_equal String.list_ascii_of_string) in Hs.
    rewrite list_rev, list_append, list_slashes in Hs.
    apply (f_equal (@rev ascii)) in Hs.
    by rewrite rev_involutive, rev_app_distr, rev_replicate in Hs.
  - apply not_true_is_false. rewrite ends_with_slash_last, list_rev.
    destruct t as [|c t]; simpl; [done|].
    rewrite last_snoc. intros [= ->]. by destruct (Hn t).
Qed.

Lemma rstrip_slash_fixed s : ends_with_slash s = false → rstrip_slash s = s.
Proof.
  intros Hs. unfold rstrip_slash. apply list_inj. rewrite list_rev.
  assert (lstrip_slash (String.rev s) = String.rev s) as ->.
  { destruct (String.rev s) as [|c t] eqn:Hr; [done|].
    apply lstrip_slash_other. intros ->.
    apply not_true_iff_false in Hs. apply Hs, ends_with_slash_last.
    apply (f_equal String.list_ascii_of_string) in Hr. rewrite list_rev in Hr.
    apply (f_equal (@rev ascii)) in Hr. rewrite rev_involutive in Hr.
    rewrite Hr. simpl. by rewrite last_snoc. }
  by rewrite list_rev, rev_involutive.
Qed.

(** X5: the base URL a client stores is the one passed with its
    trailing slashes removed: it does not end with a slash, the argument
    is it followed by slashes only, and constructing a client from it
    again changes nothing. *)
Theorem init_base_url base token timeout :
  let c := __init__ (Passed base) token timeout in
  ends_with_slash (base_url c) = false
  ∧ (∃ n, base = base_url c +:+ slashes n)
  ∧ __init__ (Passed (base_url c)) token timeout = c.
Proof.
  simpl. destruct (rstrip_slash_spec base) as [Hn Hs].
  split; [done|]. split; [done|].
  unfold __init__; simpl. by rewrite (rstrip_slash_fixed _ Hs).
Qed.

(** X6: entering and exiting the context manager are idempotent;
    entering keeps a connection that is already open, exiting leaves none,
    exiting after entering a client without connection restores the state,
    and neither touches the trace or the token. *)
Theorem context_manager_idempotent st :
  let entered := (__aenter__ st).2 in
  let exited := (__aexit__ st).2 in
  __aenter__ entered = (Returned (), entered)
  ∧ __aexit__ exited = (Returned (), exited)
  ∧ is_Some (_http_client (self entered))
  ∧ _http_client (self exited) = None
  ∧ (∀ client, _http_client (self st) = Some client →
               _http_client (self entered) = Some client)
  ∧ (_http_client (self st) = None → (__aexit__ entered).2 = st)
  ∧ trace entered = trace st ∧ trace exited = trace st
  ∧ token (self entered) = token (self st) ∧ token (self exited) = token (self st).
Proof.
  destruct st as [[b t [cl|] tm] tr];
    unfold __aenter__, __aexit__, get_self, put_self, mbind, io_bind, mret, io_ret;
    simpl; repeat split; eauto; try done; by intros ? [= <-].
Qed.

Lemma request_self w m e p j d f st :
  self (_request w m e p j d f st).2 = self st.
Proof. by destruct (request_trace w m e p j d f st) as (evs & -> & _). Qed.

Lemma create_user_client w st :
  let c' := self (create_user_and_set_token w st).2 in
  base_url c' = base_url (self st)
  ∧ _http_client c' = _http_client (self st)
  ∧ _timeout c' = _timeout (self st).
Proof.
  simpl. pose proof (request_self w "POST" "/users/" None None None None st) as Hself.
  revert Hself.
  unfold create_user_and_set_token, py_contains, py_getitem, set_token, dict_get,
    raise, get_self, put_self, mbind, io_bind, mret, io_ret.
  destruct (_request w "POST" "/users/" None None None None st) as [[v|x] st1]; simpl;
    [|by intros ->].
  intros <-. repeat (case_match; simplify_eq/=); done.
Qed.

(** What a call does to the connection: every request it adds goes over
    the connection of the state it started from, and it leaves the base
    URL, the stored connection and the timeout alone. *)
Lemma invoke_connection w c st :
  ∃ evs, trace (invoke w c st).2 = trace st ++ evs
         ∧ Forall (λ via, via = connection st) (connections evs)
         ∧ base_url (self (invoke w c st).2) = base_url (self st)
         ∧ _http_client (self (invoke w c st).2) = _http_client (self st)
         ∧ _timeout (self (invoke w c st).2) = _timeout (self st).
Proof.
  destruct c; simpl invoke;
    lazymatch goal with
    | |- context [get_text_from_image_and_text] => idtac
    | |- context [add_memory_entry w ?i ?mt ?sc ?ct ?kw st] =>
        destruct (add_memory_entry_cases w i mt sc ct kw st) as [[_ [msg ->]]|[_ ->]];
        [ exists []; rewrite app_nil_r; by repeat split
        | lazymatch goal with
          | |- context [_request w ?m ?e ?p ?j ?d ?f st] =>
              destruct (request_trace w m e p j d f st) as (evs & -> & Hevs)
          end;
          eexists; split; [reflexivity|]; simpl;
          rewrite (connections_decodes _ Hevs);
          split; [by apply Forall_singleton|done] ]
    | |- context [create_user_and_set_token] =>
        destruct (create_user_client w st) as (-> & -> & ->);
        rewrite create_user_trace;
        destruct (request_trace w "POST" "/users/" None None None None st)
          as (evs & -> & Hevs);
        eexists; split; [reflexivity|]; simpl;
        rewrite (connections_decodes _ Hevs);
        split; [by apply Forall_singleton|done]
    | |- context [(?m st).2] =>
        let h := head_of m in
        unfold h; cbv zeta; rewrite ?request_then_ret;
        lazymatch goal with
        | |- context [_request w ?m ?e ?p ?j ?d ?f st] =>
            destruct (request_trace w m e p j d f st) as (evs & -> & Hevs)
        end;
        eexists; split; [reflexivity|]; simpl;
        rewrite (connections_decodes _ Hevs);
        split; [by apply Forall_singleton|done]
    end.
  match goal with
  | |- context [get_text_from_image_and_text w ?f ?p ?m ?pr ?sid st] =>
      destruct (image_cases w f p m pr sid st)
        as [[_ ->]|[[msg ->]|(form & files & -> & _)]]
  end.
  - exists []. rewrite app_nil_r. by repeat split.
  - eexists; split; [reflexivity|]. by repeat split.
  - destruct (request_trace w "POST" "/llm/image-completion/" None None (Some form)
                (Some files) (logged st [EvOpen image_file_path]))
      as (evs & -> & Hevs).
    rewrite logged_logged. eexists; split; [reflexivity|]. simpl.
    rewrite (connections_decodes _ Hevs).
    split; [by apply Forall_singleton|done].
Qed.

Lemma connection_bound st :
  bound (self st) →
  connection st = httpx.AsyncClient (base_url (self st)) (_timeout (self st)).
Proof.
  unfold connection, bound. intros Hb.
  destruct (_http_client (self st)) as [cl|]; [by apply Hb|done].
Qed.

(** One step of a run keeps the base URL and the timeout, keeps the
    stored connection bound to them, and sends over a connection bound to
    them. *)
Lemma perform_bound w a st :
  bound (self st) →
  let st' := perform w a st in
  base_url (self st') = base_url (self st)
  ∧ _timeout (self st') = _timeout (self st)
  ∧ bound (self st')
  ∧ ∃ evs, trace st' = trace st ++ evs
           ∧ Forall (λ via, via = httpx.AsyncClient (base_url (self st))
                                    (_timeout (self st)))
               (connections evs).
Proof.
  intros Hb. destruct a; simpl.
  - destruct st as [[b t [cl|] tm] tr];
      unfold __aenter__, get_self, put_self, mbind, io_bind, mret, io_ret; simpl;
      (repeat split; [done..| |exists []; by rewrite app_nil_r]).
    + intros ? [= <-]. by apply Hb.
    + by intros ? [= <-].
  - destruct st as [[b t [cl|] tm] tr];
      unfold __aexit__, get_self, put_self, mbind, io_bind, mret, io_ret; simpl;
      (repeat split; [done..| |exists []; by rewrite app_nil_r]); done.
  - unfold set_token, get_self, put_self, mbind, io_bind; simpl.
    repeat split; [done|exists []; by rewrite app_nil_r].
  - destruct (invoke_connection w c st) as (evs & Ht & Hc & Hb' & Hh & Htm).
    split; [done|]. split; [done|]. split.
    + unfold bound. rewrite Hb', Hh, Htm. exact Hb.
    + exists evs. split; [done|]. by rewrite <- (connection_bound st Hb).
Qed.

Lemma perform_all_bound w acts st :
  bound (self st) →
  let st' := perform_all w acts st in
  base_url (self st') = base_url (self st)
  ∧ _timeout (self st') = _timeout (self st)
  ∧ bound (self st')
  ∧ ∃ evs, trace st' = trace st ++ evs
           ∧ Forall (λ via, via = httpx.AsyncClient (base_url (self st))
                                    (_timeout (self st)))
               (connections evs).
Proof.
  unfold perform_all. revert st.
  induction acts as [|a acts IH]; intros st Hb; simpl.
  - repeat split; [done|]. exists []. by rewrite app_nil_r.
  - destruct (perform_bound w a st Hb) as (Hu & Ht & Hb' & evs1 & Htr1 & Hc1).
    destruct (IH _ Hb') as (Hu2 & Ht2 & Hb2 & evs2 & Htr2 & Hc2).
    rewrite Hu in Hu2, Hc2. rewrite Ht in Ht2, Hc2.
    repeat split; [done..|].
    exists (evs1 ++ evs2). rewrite Htr2, Htr1, app_assoc. split; [done|].
    rewrite connections_app. by apply Forall_app.
Qed.

(** X7: along any run of a client (entering, exiting, setting the
    token, calling typed methods, in any order), the base URL and the
    timeout stay those of its construction, and every request is sent over
    a connection bound to them. *)
Theorem requests_go_to_base_url w base token timeout acts :
  let c := __init__ base token timeout in
  let st := perform_all w acts {| self := c; trace := [] |} in
  base_url (self st) = base_url c
  ∧ _timeout (self st) = _timeout c
  ∧ Forall (λ via, client_base_url via = base_url c ∧ client_timeout via = _timeout c)
      (connections (trace st)).
Proof.
  intros c st. subst st.
  destruct (perform_all_bound w acts {| self := c; trace := [] |})
    as (Hu & Ht & _ & evs & Htr & Hc); [done|].
  split; [done|]. split; [done|]. rewrite Htr. simpl.
  eapply Forall_impl; [exact Hc|]. by intros via ->.
Qed.

(** ** Headers *)

Lemma sent_headers w c st :
  Forall (λ r, headers r = _get_headers w (self st)) (sent (invoke w c) st).
Proof.
  destruct (invoke_effect w c st) as (evs & Ht & Hh & _).
  unfold sent, new_requests. by rewrite Ht, requests_app, drop_app_length.
Qed.

(** X8: the [headers=] mapping every typed method hands to the HTTP
    library with its request has [accept: application/json], has
    [Authorization: Bearer <token>] exactly when the stored token is
    truthy, and has no other entry.  (What the library adds of its own,
    such as [Host], [User-Agent] or [Content-Type], is not in that mapping.) *)
Theorem request_headers w c st :
  Forall (λ r,
            headers r !! "accept" = Some "application/json"
            ∧ headers r !! "Authorization"
              = (if is_truthy (token (self st))
                 then Some ("Bearer " +:+ py_str w (token (self st)))
                 else None)
            ∧ ∀ k, is_Some (headers r !! k) → k = "accept" ∨ k = "Authorization")
    (sent (invoke w c) st).
Proof.
  eapply Forall_impl; [apply sent_headers|].
  intros r ->. unfold _get_headers.
  destruct (is_truthy (token (self st))).
  - split; [by simplify_map_eq|]. split; [by simplify_map_eq|].
    intros k [v Hk]. apply lookup_insert_Some in Hk as [[<- _]|[_ Hk]]; [by right|].
    apply lookup_singleton_Some in Hk as [<- _]. by left.
  - split; [by simplify_map_eq|]. split; [by simplify_map_eq|].
    intros k [v Hk]. apply lookup_singleton_Some in Hk as [<- _]. by left.
Qed.

Lemma invoke_all_client w cs st :
  base_url (self (invoke_all w cs st)) = base_url (self st)
  ∧ _http_client (self (invoke_all w cs st)) = _http_client (self st)
  ∧ _timeout (self (invoke_all w cs st)) = _timeout (self st).
Proof.
  unfold invoke_all. revert st. induction cs as [|c cs IH]; intros st; simpl; [done|].
  destruct (invoke_connection w c st) as (_ & _ & _ & Hb & Hh & Ht).
  destruct (IH (invoke w c st).2) as (-> & -> & ->). done.
Qed.

(** X9: no sequence of typed method calls changes the base URL, the
    stored connection or the timeout of the client; without a
    user-creation call it changes nothing of the client at all. *)
Theorem calls_keep_client w cs st :
  let st' := invoke_all w cs st in
  base_url (self st') = base_url (self st)
  ∧ _http_client (self st') = _http_client (self st)
  ∧ _timeout (self st') = _timeout (self st)
  ∧ (Forall (λ c, c ≠ CreateUserAndSetToken) cs → self st' = self st).
Proof.
  intros st'. subst st'. destruct (invoke_all_client w cs st) as (Hb & Hh & Ht).
  repeat split; [done..|]. intros Hcs. by destruct (invoke_all_effect w cs st Hcs).
Qed.

(** ** Marshalling, continued *)

Lemma image_form_fields w (provider : string) (model prompt session_id : option string) :
  let form0 : gmap string pyval := {[ "provider" := py provider ]} in
  let form1 := if is_truthy (py prompt) then <[ "prompt" := py prompt ]> form0
               else form0 in
  let form2 := if is_truthy (py model) then <[ "model" := py model ]> form1
               else form1 in
  let form3 := if is_truthy (py session_id)
               then <[ "session_id" := py session_id ]> form2 else form2 in
  (λ v, if is_not_None v then PStr (py_str w v) else PNone)
    <$> filter (λ kv, is_not_None kv.2) form3
  = list_to_map ([("provider", py provider)] ++ given_truthy "prompt" prompt
                 ++ given_truthy "model" model
                 ++ given_truthy "session_id" session_id).
Proof.
  destruct model as [[|]|], prompt as [[|]|], session_id as [[|]|];
    apply map_eq; intros k; vm_compute; reflexivity.
Qed.

(** After its request the primitive only decodes. *)
Lemma request_trace_decodes w m e p j d f st :
  ∃ evs, (_request w m e p j d f st).2
         = logged st (EvRequest (connection st) (outgoing w st m e p j d f) :: evs)
         ∧ Forall (λ ev, ∃ resp, ev = EvJson resp) evs.
Proof.
  rewrite request_run. unfold outgoing, logged. run_io.
  repeat (case_match; simplify_eq/=); rewrite <- ?app_assoc; simpl;
    eexists; (split; [reflexivity|]); repeat constructor; by eexists.
Qed.

Lemma opened_decodes evs :
  Forall (λ ev, ∃ resp, ev = EvJson resp) evs → opened evs = [].
Proof. induction 1 as [|ev evs [resp ->] _ IH]; simpl; done. Qed.

Lemma requests_decodes evs :
  Forall (λ ev, ∃ resp, ev = EvJson resp) evs → requests evs = [].
Proof. induction 1 as [|ev evs [resp ->] _ IH]; simpl; done. Qed.

(** The image method once the file is there and opens: one request from
    the state that has logged the open. *)
Lemma image_run w path provider model prompt session_id st :
  path_exists w path = true →
  open_rb w path = None →
  let c := GetTextFromImageAndText path provider model prompt session_id in
  let mime := guess_type w path in
  let part :=
    {| part_file_name := basename path;
       part_file_path := path;
       part_mime_type := if is_truthy (py mime) then default "" mime
                         else "application/octet-stream" |} in
  get_text_from_image_and_text w path provider model prompt session_id st
  = _request w "POST" "/llm/image-completion/" None None
      (Some (list_to_map (required c ++ supplied c)))
      (Some {[ "image_file" := part ]}) (logged st [EvOpen path]).
Proof.
  intros Hp Ho c mime part. unfold get_text_from_image_and_text.
  rewrite Hp. simpl negb. cbv iota zeta.
  unfold emit, mbind, io_bind. simpl. rewrite Ho.
  rewrite image_form_fields. reflexivity.
Qed.

(** X10: for a file that exists and opens, the image method opens it
    once and sends one multipart POST: the form fields are the provider
    and those of prompt, model and session id that are non-empty, the one
    file part is ["image_file"], named by the base name of the path, with
    the guessed MIME type or ["application/octet-stream"] when none is
    guessed. *)
Theorem image_request w path provider model prompt session_id st :
  path_exists w path = true →
  open_rb w path = None →
  let c := GetTextFromImageAndText path provider model prompt session_id in
  let st' := (invoke w c st).2 in
  ∃ part,
    sent (invoke w c) st
    = [outgoing w st "POST" "/llm/image-completion/" None None
         (Some (list_to_map (required c ++ supplied c)))
         (Some {[ "image_file" := part ]})]
    ∧ part_file_name part = basename path
    ∧ part_file_path part = path
    ∧ part_mime_type part
      = match guess_type w path with
        | Some mime => if String.eqb mime "" then "application/octet-stream" else mime
        | None => "application/octet-stream"
        end
    ∧ opened (drop (length (trace st)) (trace st')) = [path].
Proof.
  intros Hp Ho c st'. subst c st'. simpl invoke.
  unfold sent. rewrite (image_run w path provider model prompt session_id st Hp Ho).
  match goal with
  | |- context [_request w ?m ?e ?p ?j ?d ?f ?s] =>
      destruct (request_trace_decodes w m e p j d f s) as (evs & -> & Hevs)
  end.
  eexists. rewrite logged_logged, new_requests_logged, requests_app. simpl.
  rewrite (requests_decodes _ Hevs). split; [reflexivity|]. simpl.
  split; [done|]. split; [done|]. split.
  - destruct (guess_type w path) as [mime|]; simpl; [|done]. by destruct (mime =? "")%string.
  - rewrite drop_app_length. simpl. by rewrite (opened_decodes _ Hevs).
Qed.

Ltac split_args :=
  repeat match goal with
         | a : option string |- _ => destruct a as [[|]|]
         | a : option bool |- _ => destruct a
         | a : option (gmap string pyval) |- _ =>
             let d := fresh "dict" in
             destruct a as [d|]; [destruct (decide (d = ∅)) as [->|?]|]
         | a : arg _ |- _ => destruct a
         end.

Lemma truthy_dict (d : gmap string pyval) :
  d ≠ ∅ → is_truthy (py (Some d)) = true.
Proof. intros Hd. simpl. by rewrite bool_decide_eq_false_2. Qed.

Lemma sent_image_exact w path provider model prompt session_id st :
  let c := GetTextFromImageAndText path provider model prompt session_id in
  sent (invoke w c) st = []
  ∨ ∃ files,
      sent (invoke w c) st
      = [outgoing w st "POST" "/llm/image-completion/" None None
           (Some (list_to_map (required c ++ supplied c))) (Some files)].
Proof.
  intros c. subst c. simpl invoke.
  destruct (path_exists w path) eqn:Hp.
  - destruct (open_rb w path) as [msg|] eqn:Ho.
    + left. unfold sent, get_text_from_image_and_text. rewrite Hp. simpl.
      unfold emit, raise, mbind, io_bind; simpl. rewrite Ho.
      apply (new_requests_logged st [EvOpen path]).
    + right. eexists. unfold sent.
      rewrite (image_run w path provider model prompt session_id st Hp Ho).
      match goal with
      | |- context [_request w ?m ?e ?p ?j ?d ?f ?s] =>
          destruct (request_trace w m e p j d f s) as (evs & -> & Hevs)
      end.
      rewrite logged_logged, new_requests_logged, requests_app. simpl.
      by rewrite Hevs.
  - left. unfold sent, get_text_from_image_and_text. rewrite Hp. simpl.
    apply new_requests_same.
Qed.

Lemma clashing_nil (kwargs : gmap string pyval) k :
  clashing kwargs = [] → k ∈ add_memory_entry_parameters → kwargs !! k = None.
Proof.
  intros Hc Hk. destruct (kwargs !! k) as [v|] eqn:Hv; [|done].
  assert (k ∈ clashing kwargs) as Hin.
  { unfold clashing. apply list_elem_of_filter. split; [by rewrite Hv|done]. }
  rewrite Hc in Hin. by apply elem_of_nil in Hin.
Qed.

Lemma clashing_free (kwargs : gmap string pyval) :
  (∀ k, k ∈ add_memory_entry_parameters → kwargs !! k = None) → clashing kwargs = [].
Proof.
  intros Hfree. destruct (clashing kwargs) as [|k ks] eqn:Hc; [done|].
  assert (k ∈ clashing kwargs) as Hin by (rewrite Hc; apply list_elem_of_here).
  unfold clashing in Hin. apply list_elem_of_filter in Hin as [Hv Hk].
  rewrite (Hfree k Hk) in Hv. by destruct Hv.
Qed.

Lemma clashing_cons (kwargs : gmap string pyval) k :
  k ∈ add_memory_entry_parameters → is_Some (kwargs !! k) → clashing kwargs ≠ [].
Proof.
  intros Hk Hv Hc. rewrite (clashing_nil kwargs k Hc Hk) in Hv. by destruct Hv.
Qed.

(** The body of [add_memory_entry], once no keyword clashes. *)
Lemma memory_body (kwargs : gmap string pyval) (memory_type scope content : string) :
  clashing kwargs = [] →
  let body : gmap string pyval :=
    kwargs ∪ {[ "memory_type" := PStr memory_type; "scope" := PStr scope;
                "content" := PStr content ]} in
  (∀ k v, kwargs !! k = Some v → body !! k = Some v)
  ∧ body !! "memory_type" = Some (PStr memory_type)
  ∧ body !! "scope" = Some (PStr scope)
  ∧ body !! "content" = Some (PStr content)
  ∧ dom body = dom kwargs ∪ {[ "memory_type"; "scope"; "content" ]}.
Proof.
  intros Hc body. subst body.
  assert (∀ k, k ∈ add_memory_entry_parameters → kwargs !! k = None) as Hk.
  { intros k. by apply clashing_nil. }
  split; [|split; [|split; [|split]]].
  - intros k v Hv. by apply lookup_union_Some_l.
  - rewrite lookup_union_r; [by simplify_map_eq|].
    apply Hk. unfold add_memory_entry_parameters. set_solver.
  - rewrite lookup_union_r; [by simplify_map_eq|].
    apply Hk. unfold add_memory_entry_parameters. set_solver.
  - rewrite lookup_union_r; [by simplify_map_eq|].
    apply Hk. unfold add_memory_entry_parameters. set_solver.
  - by rewrite dom_union_L, !dom_insert_L, dom_singleton_L.
Qed.

Lemma required_supplied_transmitted w c st :
  Forall (λ r, Forall (λ kv, carries_value r kv.1 kv.2) (required c ++ supplied c))
    (sent (invoke w c) st).
Proof.
  destruct c; simpl invoke;
    lazymatch goal with
    | |- context [get_text_from_image_and_text] => idtac
    | |- context [add_memory_entry] => idtac
    | |- _ => to_request; apply Forall_singleton
    end.
  all: try (simpl; by constructor).
  all: try (cbn [required supplied app]; apply Forall_forall; intros [k v] Hin;
            apply elem_of_map_to_list in Hin;
            right; left; eexists; split; [reflexivity|exact Hin]).
  all: try (split_args; cbn [required supplied]; try unfold given_truthy;
            rewrite ?truthy_dict by done; simpl;
            repeat (apply Forall_cons; split; [key_in_request|]);
            by apply Forall_nil).
  - match goal with
    | |- context [sent (get_text_from_image_and_text w ?f ?p ?m ?pr ?sid) st] =>
        destruct (sent_image_exact w f p m pr sid st) as [Hs|(files & Hs)]
    end; simpl invoke in Hs; rewrite Hs; [by apply Forall_nil|].
    apply Forall_singleton.
    split_args; cbn [required supplied]; unfold given_truthy; simpl;
      repeat (apply Forall_cons; split;
              [right; right; eexists; split; [reflexivity|]; vm_compute; reflexivity|]);
      by apply Forall_nil.
  - destruct (sent_add_memory w session_id memory_type scope content kwargs st)
      as [[_ Hs]|[Hk Hs]]; simpl invoke in Hs; rewrite Hs; [by apply Forall_nil|].
    apply Forall_singleton.
    destruct (memory_body kwargs memory_type scope content Hk)
      as (Hkw & Hmt & Hsc & Hct & _).
    cbn [required supplied]. apply Forall_app. split.
    + repeat (apply Forall_cons; split;
              [right; left; eexists; split; [reflexivity|]; done|]).
      by apply Forall_nil.
    + apply Forall_forall. intros [k v] Hin. apply elem_of_map_to_list in Hin.
      right; left. eexists. split; [reflexivity|]. by apply Hkw.
Qed.

(** X12: in every request a typed method sends, each required body,
    query or form parameter, each optional argument the caller supplies in
    a way the method's test lets through, each keyword argument of
    [add_memory_entry], each entry of the dictionary given to
    [update_mcp_connection] or [update_memory_entry], and each parameter
    with a default of its own that the caller leaves out, is transmitted
    under its key: with the value passed, or with that default. *)
Theorem arguments_transmitted w c st :
  Forall (λ r, Forall (λ kv, carries_value r kv.1 kv.2)
                 (required c ++ supplied c ++ omitted_defaulted c))
    (sent (invoke w c) st).
Proof.
  pose proof (required_supplied_transmitted w c st) as H1.
  pose proof (omitted_defaulted_present w c st) as H2.
  apply Forall_forall. intros r Hr.
  rewrite Forall_forall in H1, H2.
  rewrite app_assoc. apply Forall_app. split; [by apply H1|by apply H2].
Qed.

Ltac only_known_keys :=
  let k := fresh "k" in
  let Hk := fresh "Hk" in
  intros k Hk; unfold carries, outgoing in Hk; simpl in Hk;
  destruct Hk as [(?&?&Hk)|[(?&?&Hk)|(?&?&Hk)]]; simplify_eq/=;
  apply elem_of_dom in Hk; revert Hk;
  rewrite ?dom_insert_L, ?dom_singleton_L, ?dom_empty_L;
  rewrite ?elem_of_union, ?elem_of_singleton, ?elem_of_empty, list_elem_of_In;
  simpl; intuition (subst; auto).

Lemma falsy_dict : is_truthy (py (Some (∅ : gmap string pyval))) = false.
Proof. reflexivity. Qed.

(** X13: apart from the methods that send a dictionary of the
    caller's, a request carries no key other than those of the required
    parameters, the supplied optional ones and the defaulted ones. *)
Theorem no_other_keys w c st :
  passes_dictionary c = false →
  Forall (λ r, ∀ k, carries r k →
                    k ∈ (required c ++ supplied c ++ omitted_defaulted c).*1)
    (sent (invoke w c) st).
Proof.
  intros Hc. destruct c; try discriminate Hc; clear Hc; simpl invoke;
    lazymatch goal with
    | |- context [get_text_from_image_and_text] => idtac
    | |- _ => to_request; apply Forall_singleton
    end.
  all: try (split_args; cbn [required supplied omitted_defaulted];
            try unfold given_truthy; rewrite ?truthy_dict by done;
            rewrite ?falsy_dict; simpl; only_known_keys).
  match goal with
  | |- context [sent (get_text_from_image_and_text w ?f ?p ?m ?pr ?sid) st] =>
      destruct (sent_image_exact w f p m pr sid st) as [Hs|(files & Hs)]
  end; simpl invoke in Hs; rewrite Hs; [by apply Forall_nil|].
  apply Forall_singleton. intros k Hk.
  unfold carries, outgoing in Hk; cbn [params json_data data] in Hk.
  destruct Hk as [(?&?&Hk)|[(?&?&Hk)|(?&?&[v Hk])]]; simplify_eq.
  apply elem_of_list_to_map_2 in Hk. cbn [omitted_defaulted]. rewrite app_nil_r.
  apply list_elem_of_fmap. by exists (k, v).
Qed.

(** ** Results of the methods *)



(** X15: the user-creation call replaces the stored token by the
    ["access_token"] field exactly when it returns an object that has that
    field, and then changes nothing else of the client; however else it
    ends (an exception, an object without the field, any other value) the
    client is as it was. *)
Theorem create_user_changes_token_only w st :
  let out := create_user_and_set_token w st in
  match out.1 with
  | Returned (PDict body) =>
      match body !! "access_token" with
      | Some tok =>
          self out.2 = {| base_url := base_url (self st); token := tok;
                          _http_client := _http_client (self st);
                          _timeout := _timeout (self st) |}
      | None => self out.2 = self st
      end
  | _ => self out.2 = self st
  end.
Proof.
  simpl. pose proof (request_self w "POST" "/users/" None None None None st) as Hself.
  revert Hself.
  unfold create_user_and_set_token, py_contains, py_getitem, set_token, dict_get,
    raise, get_self, put_self, mbind, io_bind, mret, io_ret.
  destruct (_request w "POST" "/users/" None None None None st) as [[v|x] st1]; simpl;
    [|done].
  intros <-. destruct v as [| | | | | |body]; simpl;
    try (repeat (case_match; simplify_eq/=); done).
  destruct (bool_decide (body = ∅)) eqn:Hd; simpl.
  - apply bool_decide_eq_true in Hd. subst body. by rewrite lookup_empty.
  - destruct (body !! "access_token") as [tok|] eqn:Htok; simpl.
    + by rewrite Htok.
    + by rewrite Htok.
Qed.

(** X16: when the server answers the user-creation call with a truthy
    JSON number or boolean, the membership test raises [TypeError], which
    escapes the method and is not the domain exception. *)
Theorem create_user_non_object w st v :
  (_request w "POST" "/users/" None None None None st).1 = Returned v →
  is_truthy v = true →
  match v with PBool _ | PInt _ | PFloat _ => True | _ => False end →
  ∃ msg, (create_user_and_set_token w st).1 = Raised (TypeError msg)
         ∧ ¬ only_domain_exception (create_user_and_set_token w st).1.
Proof.
  unfold create_user_and_set_token, py_contains, py_getitem, set_token, dict_get,
    raise, get_self, put_self, mbind, io_bind, mret, io_ret.
  destruct (_request w "POST" "/users/" None None None None st) as [[v'|x] st1]; simpl;
    [|done].
  intros [= ->] Hv Hk. rewrite Hv.
  destruct v; try done; simpl; eexists; (split; [reflexivity|]);
    intros H; by destruct (H _ eq_refl) as (? & ? & ?).
Qed.

Lemma create_user_non_object_witness :
  ∃ msg, (create_user_and_set_token (fixed_world (Returned (ok_response (PBool true))))
            fresh).1 = Raised (TypeError msg).
Proof.
  destruct (create_user_non_object (fixed_world (Returned (ok_response (PBool true))))
              fresh (PBool true) eq_refl eq_refl I) as (msg & Hmsg & _).
  by exists msg.
Defined.

(** X17: called with keywords that are not named like its parameters,
    [add_memory_entry] sends one POST whose body has every keyword
    argument with its value and the three named fields with theirs, and no
    other key; called with a keyword named like a parameter it raises
    [TypeError], sends nothing and leaves the state as it was. *)
Theorem memory_entry_kwargs w session_id memory_type scope content kwargs st :
  let m := add_memory_entry w session_id memory_type scope content kwargs in
  ((∀ k, k ∈ add_memory_entry_parameters → kwargs !! k = None) →
   ∃ body,
     sent m st
     = [outgoing w st "POST" ("/sessions/" +:+ session_id +:+ "/memory") None
          (Some (PDict body)) None None]
     ∧ (∀ k v, kwargs !! k = Some v → body !! k = Some v)
     ∧ body !! "memory_type" = Some (PStr memory_type)
     ∧ body !! "scope" = Some (PStr scope)
     ∧ body !! "content" = Some (PStr content)
     ∧ dom body = dom kwargs ∪ {[ "memory_type"; "scope"; "content" ]})
  ∧ (∀ k, k ∈ add_memory_entry_parameters → is_Some (kwargs !! k) →
          (∃ msg, m st = (Raised (TypeError msg), st)) ∧ sent m st = []).
Proof.
  intros m. subst m.
  pose proof (add_memory_entry_cases w session_id memory_type scope content kwargs st)
    as Hcases.
  pose proof (sent_add_memory w session_id memory_type scope content kwargs st)
    as Hsent.
  simpl in Hcases, Hsent. split.
  - intros Hfree. destruct Hsent as [[Hk _]|[Hk Hs]].
    + destruct Hk. by apply clashing_free.
    + eexists. split; [exact Hs|]. by apply memory_body.
  - intros k Hin Hv.
    pose proof (clashing_cons kwargs k Hin Hv) as Hne.
    destruct Hcases as [[_ Hm]|[Hk _]]; [|done].
    destruct Hsent as [[_ Hs]|[Hk _]]; [|done]. done.
Qed.

Lemma memory_entry_kwargs_witness :
  (∃ body,
     sent (add_memory_entry chat_world "s1" "Fact" "Session" "likes tea"
             {[ "importance" := PInt 5 ]}) fresh
     = [outgoing chat_world fresh "POST" "/sessions/s1/memory" None
          (Some (PDict body)) None None]
     ∧ body !! "importance" = Some (PInt 5)
     ∧ body !! "content" = Some (PStr "likes tea"))
  ∧ (∃ msg, add_memory_entry chat_world "s1" "Fact" "Session" "likes tea"
              {[ "content" := PStr "likes coffee" ]} fresh
            = (Raised (TypeError msg), fresh)).
Proof.
  split.
  - destruct (proj1 (memory_entry_kwargs chat_world "s1" "Fact" "Session" "likes tea"
                       {[ "importance" := PInt 5 ]} fresh))
      as (body & Hs & Hkw & _ & _ & Hct & _).
    + intros k Hk. unfold add_memory_entry_parameters in Hk.
      repeat (apply elem_of_cons in Hk as [->|Hk]; [reflexivity|]).
      by apply elem_of_nil in Hk.
    + exists body. split; [exact Hs|]. split; [|exact Hct].
      apply Hkw. reflexivity.
  - apply (proj2 (memory_entry_kwargs chat_world "s1" "Fact" "Session" "likes tea"
                    {[ "content" := PStr "likes coffee" ]} fresh) "content").
    + unfold add_memory_entry_parameters. repeat constructor.
    + by eexists.
Defined.

Lemma image_open_failure_run w path provider model prompt session_id st msg :
  path_exists w path = true →
  open_rb w path = Some msg →
  get_text_from_image_and_text w path provider model prompt session_id st
  = (Raised (OSError msg), logged st [EvOpen path])
  ∧ sent (get_text_from_image_and_text w path provider model prompt session_id) st = [].
Proof.
  intros Hp Ho.
  assert (get_text_from_image_and_text w path provider model prompt session_id st
          = (Raised (OSError msg), logged st [EvOpen path])) as Hrun.
  { unfold get_text_from_image_and_text. rewrite Hp. simpl.
    unfold emit, raise, mbind, io_bind; simpl. by rewrite Ho. }
  split; [done|]. unfold sent. rewrite Hrun. apply (new_requests_logged st [EvOpen path]).
Qed.

(** X11: when the file exists but cannot be opened, the image method
    raises the [OSError] of [open] after the open attempt and sends no
    request. *)
Theorem image_open_failure w path provider model prompt session_id st msg :
  path_exists w path = true →
  open_rb w path = Some msg →
  get_text_from_image_and_text w path provider model prompt session_id st
  = (Raised (OSError msg), logged st [EvOpen path])
  ∧ sent (get_text_from_image_and_text w path provider model prompt session_id) st = [].
Proof. apply image_open_failure_run. Qed.

(** X18: every request uses one of the five HTTP verbs; GET and DELETE
    requests have no body, only GET requests have query parameters, a JSON
    body never comes with form fields or files, and files are sent to the
    image endpoint only. *)
Theorem request_shapes w c st :
  Forall (λ r,
            method r ∈ ["GET"; "POST"; "PUT"; "PATCH"; "DELETE"]
            ∧ (method r = "GET" ∨ method r = "DELETE" →
               json_data r = None ∧ data r = None ∧ files r = None)
            ∧ (is_Some (params r) → method r = "GET")
            ∧ (is_Some (json_data r) → data r = None ∧ files r = None)
            ∧ (is_Some (files r) ↔ endpoint r = "/llm/image-completion/"))
    (sent (invoke w c) st).
Proof.
  destruct c; simpl invoke;
    lazymatch goal with
    | |- context [get_text_from_image_and_text] => idtac
    | |- context [add_memory_entry w ?i ?mt ?sc ?ct ?kw] =>
        destruct (sent_add_memory w i mt sc ct kw st) as [[_ Hs]|[_ Hs]];
        simpl invoke in Hs; rewrite Hs; [by apply Forall_nil|apply Forall_singleton]
    | |- _ => to_request; apply Forall_singleton
    end.
  all: try (unfold outgoing; simpl;
            split; [rewrite !elem_of_cons; tauto|];
            split; [intros [?|?]; done|];
            split; [by intros [? ?]|];
            split; [done|];
            split; [by intros [? ?]|];
            simpl; discriminate).
  match goal with
  | |- context [sent (get_text_from_image_and_text w ?f ?p ?m ?pr ?sid) st] =>
      destruct (sent_image_exact w f p m pr sid st) as [Hs|(parts & Hs)]
  end; simpl invoke in Hs; rewrite Hs; [by apply Forall_nil|].
  apply Forall_singleton. unfold outgoing; cbn [method params json_data data files endpoint].
  split; [rewrite !elem_of_cons; tauto|].
  split; [intros [?|?]; done|].
  split; [by intros [? ?]|].
  split; [by intros [? ?]|].
  split; [done|by eexists].
Qed.



(** ** The web front end *)

Lemma get_text_from_text_typed w (text provider model : string)
    (session_id : option string) (llm_params : option (gmap string pyval)) :
  get_text_from_text w text provider model session_id llm_params
  = get_text_from_text_any w (py text) (py provider) (py model) (py session_id)
      (py llm_params).
Proof. reflexivity. Qed.

Lemma dict_get_py_get payload key dflt :
  dict_get payload key dflt = lift (py_get payload key dflt).
Proof. by destruct payload. Qed.

(** X20: [send_message] answers 400 without touching the client when
    no session id is set, or when the posted object lacks a truthy
    message, provider or model; posted JSON that is no object raises
    [AttributeError]. In all three cases nothing is sent. *)
Theorem send_message_rejects w TOKEN get_json a :
  let out := web.send_message w TOKEN get_json a in
  (is_truthy (web.current_session_id a) = false →
   out = (Returned (web.Json (PDict {[ "error" := PStr "세션이 초기화되지 않았습니다." ]}),
                    400%Z), a))
  ∧ (is_truthy (web.current_session_id a) = true →
     ∀ fields, get_json = Returned (PDict fields) →
       is_truthy (default PNone (fields !! "message")) = false
       ∨ is_truthy (default PNone (fields !! "provider")) = false
       ∨ is_truthy (default PNone (fields !! "model")) = false →
       out = (Returned
                (web.Json (PDict {[ "error" := PStr "메시지, provider 또는 model이 누락되었습니다." ]}),
                 400%Z), a))
  ∧ (is_truthy (web.current_session_id a) = true →
     ∀ data, get_json = Returned data → (∀ fields, data ≠ PDict fields) →
       ∃ msg, out = (Raised (AttributeError msg), a)).
Proof.
  simpl. unfold web.send_message. split; [|split].
  - by intros ->.
  - intros -> fields -> H. simpl.
    destruct H as [-> | [-> | ->]]; simpl; rewrite ?orb_true_r; done.
  - intros -> data -> Hd. simpl.
    destruct data; simpl; eauto. by destruct (Hd d).
Qed.

(** The body of [send_message] sends one request and answers 200 or 500,
    unless what the client raises is no [Exception]. *)
Lemma send_message_body_run w current message provider model st :
  let payload : gmap string pyval :=
    if is_truthy current
    then {[ "session_id" := current; "text" := message; "provider" := provider;
            "model" := model ]}
    else {[ "text" := message; "provider" := provider; "model" := model ]} in
  let out := web.send_message_body w current message provider model st in
  (∃ evs, out.2 = logged st
                    (EvRequest (connection st)
                       (outgoing w st "POST" "/llm/text-completion/" None
                          (Some (PDict payload)) None None) :: evs)
          ∧ requests evs = [])
  ∧ match (_request w "POST" "/llm/text-completion/" None (Some (PDict payload))
             None None st).1 with
    | Returned (PDict response) =>
        out.1 = Returned (web.Json (PDict {[ "ai_response" :=
                                               default PNone (response !! "response_text") ]}),
                          200%Z)
    | Returned _ =>
        out.1 = Returned (web.Json (PDict {[ "error" := PStr "메시지 처리 중 알 수 없는 오류가 발생했습니다." ]}),
                          500%Z)
    | Raised (RiniApiException status detail) =>
        out.1 = Returned (web.Json (PDict {[ "error" :=
                            PStr ("Rini API 오류: "
                                  +:+ exn_str w (RiniApiException status detail)) ]}),
                          500%Z)
    | Raised x => out.1 = Raised x ∧ is_Exception x = false
    end
  ∧ ((∃ doc, out.1 = Returned (web.Json doc, 200%Z))
     ∨ (∃ doc, out.1 = Returned (web.Json doc, 500%Z))
     ∨ (∃ x, out.1 = Raised x ∧ is_Exception x = false)).
Proof.
  intros payload out. subst out.
  unfold web.send_message_body, get_text_from_text_any, try_except, mbind, io_bind,
    mret, io_ret. cbv zeta. fold payload.
  pose proof (request_trace w "POST" "/llm/text-completion/" None (Some (PDict payload))
                None None st) as (evs & Hst & Hevs).
  pose proof (perform_request_raises w (connection st) st "POST" "/llm/text-completion/"
                None (Some (PDict payload)) None None) as Hraise.
  rewrite <- request_run in Hraise. change (is_truthy PNone) with false. cbv iota.
  destruct (_request w "POST" "/llm/text-completion/" None (Some (PDict payload))
              None None st) as [[v|x] st2]; simpl in *; subst st2.
  - split; [destruct v; simpl; eauto|]. split; [by destruct v|].
    destruct v; simpl; eauto.
  - destruct (Hraise x eq_refl) as [(status & detail & ->)|Hx]; simpl; [eauto 10|].
    destruct x; simpl in *; try done. eauto 10.
Qed.

Lemma entered_client w (client : RiniAPIClient) tr :
  _http_client client = None →
  let st1 := (__aenter__ {| self := client; trace := tr |}).2 in
  trace st1 = tr
  ∧ connection st1 = httpx.AsyncClient (base_url client) (_timeout client)
  ∧ _get_headers w (self st1) = _get_headers w client.
Proof.
  intros Hc. unfold __aenter__, get_self, put_self, mbind, io_bind, connection; simpl.
  rewrite Hc. simpl. done.
Qed.

Lemma exit_trace st : trace (__aexit__ st).2 = trace st.
Proof.
  unfold __aexit__, get_self, put_self, mbind, io_bind, mret, io_ret; simpl.
  by destruct (_http_client (self st)).
Qed.

(** X21: once its checks pass, [send_message] sends exactly one
    request, a POST to the text-completion endpoint with the posted
    message, provider and model and the current session id, with the
    headers of a client built from [TOKEN]; it keeps the session id, and
    answers 200 or 500 unless what is raised is no [Exception]. *)
Theorem send_message_answers w TOKEN fields a message provider model :
  is_truthy (web.current_session_id a) = true →
  fields !! "message" = Some message →
  fields !! "provider" = Some provider →
  fields !! "model" = Some model →
  is_truthy message = true →
  is_truthy provider = true →
  is_truthy model = true →
  let out := web.send_message w TOKEN (Returned (PDict fields)) a in
  let client := web.get_rini_client TOKEN in
  ∃ r evs,
    web.history out.2
    = web.history a
      ++ EvRequest (httpx.AsyncClient (base_url client) (_timeout client)) r :: evs
    ∧ requests evs = []
    ∧ r = {| method := "POST"; endpoint := "/llm/text-completion/";
             headers := _get_headers w client; params := None;
             json_data :=
               Some (PDict {[ "session_id" := web.current_session_id a;
                              "text" := message; "provider" := provider;
                              "model" := model ]});
             data := None; files := None |}
    ∧ web.current_session_id out.2 = web.current_session_id a
    ∧ ((∃ doc, out.1 = Returned (web.Json doc, 200%Z))
       ∨ (∃ doc, out.1 = Returned (web.Json doc, 500%Z))
       ∨ (∃ x, out.1 = Raised x ∧ is_Exception x = false)).
Proof.
  intros Hcur Hm Hp Hmo Htm Htp Htmo out client. subst out.
  unfold web.send_message. rewrite Hcur. simpl. rewrite Hm, Hp, Hmo. simpl.
  rewrite Htm, Htp, Htmo. simpl. unfold web.async_with.
  destruct (entered_client w client (web.history a) eq_refl) as (Htr & Hconn & Hh).
  fold client. set (st1 := (__aenter__ {| self := client; trace := web.history a |}).2) in *.
  destruct (send_message_body_run w (web.current_session_id a) message provider model st1)
    as ((evs & Hst & Hevs) & _ & Hout).
  rewrite Hcur in Hst.
  destruct (web.send_message_body w (web.current_session_id a) message provider model st1)
    as [res st2]; simpl in Hst, Hout. subst st2.
  exists (outgoing w st1 "POST" "/llm/text-completion/" None
            (Some (PDict {[ "session_id" := web.current_session_id a;
                            "text" := message; "provider" := provider;
                            "model" := model ]})) None None), evs.
  rewrite exit_trace. unfold logged.
  cbn [snd fst web.history web.current_session_id trace]. rewrite Htr, Hconn.
  split; [done|]. split; [done|]. split; [unfold outgoing; by rewrite Hh|].
  split; [done|].
  exact Hout.
Qed.

(** X22: the reply of [send_message] by what the client gives: 200
    with the ["response_text"] of an object, 500 with a generic error for
    any other value, 500 with the text of the domain exception; only an
    exception outside [Exception] escapes. *)
Theorem send_message_maps_outcomes w current message provider model st :
  let payload : gmap string pyval :=
    if is_truthy current
    then {[ "session_id" := current; "text" := message; "provider" := provider;
            "model" := model ]}
    else {[ "text" := message; "provider" := provider; "model" := model ]} in
  let out := (web.send_message_body w current message provider model st).1 in
  match (_request w "POST" "/llm/text-completion/" None (Some (PDict payload))
           None None st).1 with
  | Returned (PDict response) =>
      out = Returned (web.Json (PDict {[ "ai_response" :=
                                           default PNone (response !! "response_text") ]}),
                      200%Z)
  | Returned _ =>
      out = Returned (web.Json (PDict {[ "error" := PStr "메시지 처리 중 알 수 없는 오류가 발생했습니다." ]}),
                      500%Z)
  | Raised (RiniApiException status detail) =>
      out = Returned (web.Json (PDict {[ "error" :=
                        PStr ("Rini API 오류: "
                              +:+ exn_str w (RiniApiException status detail)) ]}),
                      500%Z)
  | Raised x => out = Raised x ∧ is_Exception x = false
  end.
Proof.
  intros payload out.
  by destruct (send_message_body_run w current message provider model st)
    as (_ & H & _).
Qed.

Lemma index_body_run w current st :
  let body : gmap string pyval :=
    {[ "system_prompt" := PStr "너는 친절한 AI 비서야.";
       "alias" := PStr "웹 챗봇 세션"; "memory_mode" := PStr "auto" ]} in
  let out := web.index_body w current st in
  if is_truthy current then out = (Returned (None, current), st)
  else
    (∃ evs, out.2 = logged st
                      (EvRequest (connection st)
                         (outgoing w st "POST" "/sessions/" None (Some (PDict body))
                            None None) :: evs)
            ∧ requests evs = [])
    ∧ match (_request w "POST" "/sessions/" None (Some (PDict body)) None None st).1 with
      | Returned (PDict session) =>
          match session !! "id" with
          | Some id => out.1 = Returned (None, id)
          | None => ∃ x, out.1 = Raised x
          end
      | Returned _ => ∃ x, out.1 = Raised x
      | Raised (RiniApiException _ _) =>
          out.1 = Returned (Some (web.Text "Rini API 세션 생성에 실패했습니다. API 키 또는 서비스 상태를 확인해주세요.",
                                  500%Z), current)
      | Raised x => out.1 = Raised x
      end.
Proof.
  intros body out. subst out. unfold web.index_body.
  destruct (is_truthy current); cbv beta iota delta [negb]; [done|].
  change (create_session w (Some "웹 챗봇 세션") (Some "너는 친절한 AI 비서야.") Default)
    with (_request w "POST" "/sessions/" None (Some (PDict body)) None None).
  pose proof (request_trace w "POST" "/sessions/" None (Some (PDict body))
                None None st) as (evs & Hst & Hevs).
  revert Hst. generalize (outgoing w st "POST" "/sessions/" None (Some (PDict body))
                            None None).
  generalize (_request w "POST" "/sessions/" None (Some (PDict body)) None None).
  clear body. intros m r Hst.
  unfold try_except, py_getitem, raise, mbind, io_bind, mret, io_ret.
  destruct (m st) as [[v|x] st2]; simpl in Hst; subst st2.
  - split; [destruct v; simpl; try destruct (_ !! "id"); eauto|].
    destruct v; simpl; try destruct (_ !! "id"); eauto.
  - split; [destruct x; simpl; eauto|]. by destruct x.
Qed.

(** X23: [index] sends nothing and renders the page when a session id
    is set; otherwise it sends one session-creation request and, by what
    the client gives, stores the ["id"] of the object returned and renders
    the page, answers 500 on a domain exception, or lets any other failure
    escape, the session id staying unset in the last two cases. *)
Theorem index_creates_session w TOKEN a :
  let out := web.index w TOKEN a in
  let client := web.get_rini_client TOKEN in
  let body : gmap string pyval :=
    {[ "system_prompt" := PStr "너는 친절한 AI 비서야.";
       "alias" := PStr "웹 챗봇 세션"; "memory_mode" := PStr "auto" ]} in
  let entered := (__aenter__ {| self := client; trace := web.history a |}).2 in
  (is_truthy (web.current_session_id a) = true →
   out = (Returned (web.Page web.providers web.models, 200%Z), a))
  ∧ (is_truthy (web.current_session_id a) = false →
     (∃ evs,
        web.history out.2
        = web.history a
          ++ EvRequest (httpx.AsyncClient (base_url client) (_timeout client))
               {| method := "POST"; endpoint := "/sessions/";
                  headers := _get_headers w client; params := None;
                  json_data := Some (PDict body); data := None; files := None |}
             :: evs
        ∧ requests evs = [])
     ∧ match (_request w "POST" "/sessions/" None (Some (PDict body)) None None
                entered).1 with
       | Returned (PDict session) =>
           match session !! "id" with
           | Some id =>
               out.1 = Returned (web.Page web.providers web.models, 200%Z)
               ∧ web.current_session_id out.2 = id
           | None =>
               (∃ x, out.1 = Raised x)
               ∧ web.current_session_id out.2 = web.current_session_id a
           end
       | Returned _ =>
           (∃ x, out.1 = Raised x)
           ∧ web.current_session_id out.2 = web.current_session_id a
       | Raised (RiniApiException _ _) =>
           out.1 = Returned (web.Text "Rini API 세션 생성에 실패했습니다. API 키 또는 서비스 상태를 확인해주세요.",
                             500%Z)
           ∧ web.current_session_id out.2 = web.current_session_id a
       | Raised x =>
           out.1 = Raised x
           ∧ web.current_session_id out.2 = web.current_session_id a
       end).
Proof.
  intros out client body entered. subst out.
  destruct (entered_client w client (web.history a) eq_refl) as (Htr & Hconn & Hh).
  fold entered in Htr, Hconn, Hh.
  pose proof (index_body_run w (web.current_session_id a) entered) as Hrun.
  cbv zeta in Hrun. fold body in Hrun.
  unfold web.index, web.async_with. fold client. fold entered.
  split; intros Hcur; rewrite Hcur in Hrun.
  - rewrite Hrun. rewrite exit_trace, Htr. by destruct a.
  - destruct Hrun as [(evs & Hst & Hevs) Hout].
    destruct (web.index_body w (web.current_session_id a) entered) as [res st2].
    cbn [fst snd] in Hst, Hout. subst st2. split.
    + exists evs. split; [|done].
      assert (trace (__aexit__
                       (logged entered
                          (EvRequest (connection entered)
                             (outgoing w entered "POST" "/sessions/" None
                                (Some (PDict body)) None None) :: evs))).2
              = web.history a
                ++ EvRequest (httpx.AsyncClient (base_url client) (_timeout client))
                     {| method := "POST"; endpoint := "/sessions/";
                        headers := _get_headers w client; params := None;
                        json_data := Some (PDict body); data := None; files := None |}
                   :: evs) as Htrace.
      { rewrite exit_trace. unfold logged, outgoing. cbn [trace]. by rewrite Htr, Hconn, Hh. }
      destruct res as [[[early|] cur]|x]; cbn [fst snd web.history]; exact Htrace.
    + destruct (_request w "POST" "/sessions/" None (Some (PDict body)) None None
                  entered).1 as [[]|[]];
        try destruct (_ !! "id");
        repeat match goal with
               | H : ∃ _, _ |- _ => destruct H
               | H : _ = _ |- _ => rewrite H
               end; cbn [fst snd web.current_session_id]; eauto.
Qed.

Lemma image_request_witness :
  ∃ part,
    sent (invoke image_world
            (GetTextFromImageAndText "pics/cat.png" "google" None
               (Some "What is this?") (Some ""))) fresh
    = [outgoing image_world fresh "POST" "/llm/image-completion/" None None
         (Some {[ "provider" := PStr "google"; "prompt" := PStr "What is this?" ]})
         (Some {[ "image_file" := part ]})]
    ∧ part_file_name part = "cat.png"
    ∧ part_mime_type part = "image/png".
Proof.
  destruct (image_request image_world "pics/cat.png" "google" None
              (Some "What is this?") (Some "") fresh eq_refl eq_refl)
    as (part & Hsent & Hname & _ & Hmime & _).
  exists part. split; [exact Hsent|]. split; [exact Hname|exact Hmime].
Defined.

Lemma image_open_failure_witness :
  get_text_from_image_and_text locked_world "cat.png" "openai" None None None fresh
  = (Raised (OSError "[Errno 13] Permission denied"), logged fresh [EvOpen "cat.png"]).
Proof.
  apply (proj1 (image_open_failure locked_world "cat.png" "openai" None None None fresh
                  "[Errno 13] Permission denied" eq_refl eq_refl)).
Defined.

Lemma no_other_keys_witness :
  Forall (λ r, ∀ k, carries r k → k ∈ ["description"; "is_active"])
    (sent (invoke (fixed_world (Returned (ok_response PNone)))
             (UpdateApiKey 3 (Some "rotated") (Some false))) fresh).
Proof.
  apply (no_other_keys (fixed_world (Returned (ok_response PNone)))
           (UpdateApiKey 3 (Some "rotated") (Some false)) fresh eq_refl).
Defined.

Lemma send_message_answers_witness :
  ∃ r evs,
    web.history (web.send_message chat_world (Some "t") (Returned (PDict chat_fields))
                   chat_app).2
    = EvRequest (httpx.AsyncClient "http://localhost:8000" 600) r :: evs
    ∧ json_data r
      = Some (PDict {[ "session_id" := PStr "s1"; "text" := PStr "hello";
                       "provider" := PStr "openai"; "model" := PStr "gpt-4o" ]})
    ∧ headers r !! "Authorization" = Some "Bearer t".
Proof.
  destruct (send_message_answers chat_world (Some "t") chat_fields chat_app
              (PStr "hello") (PStr "openai") (PStr "gpt-4o")
              eq_refl eq_refl eq_refl eq_refl eq_refl eq_refl eq_refl)
    as (r & evs & Hh & _ & Hr & _).
  exists r, evs. split; [exact Hh|]. rewrite Hr. split; reflexivity.
Defined.
